(** * Newton's-second-law tutor: the solve-and-diagnose engine

    A shallow embedding of [app_with_ontology.py] and the properties its
    specification states about it.

    - Python [float] is IEEE-754 binary64: it is modelled by the kernel's
      primitive floats ([PrimFloat]), whose operations are specified against
      [SpecFloat] by the axioms of [FloatAxioms].
    - Python exceptions are an explicit error type; a function that can
      raise returns in the [py] error monad.
    - The ontology (an OWL file that is not part of the sources) is a record
      of optional individuals: owlready2 reads a name that the file does not
      define as [None]; [None] for the whole ontology is the failed load.
    - The quantity individuals the solver mutates are threaded as explicit
      state. *)

From Stdlib Require Import Floats ZArith QArith String Ascii List Bool Lia.
Import ListNotations.

Set Warnings "-inexact-float".

Local Open Scope string_scope.

(* ------------------------------------------------------------------ *)
(** ** Python exceptions and the error monad *)

Inductive exn : Type :=
| ValueError (msg : string)
| ZeroDivisionError
| IndexError
| AttributeError.

Definition py (A : Type) : Type := (exn + A)%type.

Definition ret {A : Type} (a : A) : py A := inr a.
Definition raise {A : Type} (e : exn) : py A := inl e.

Definition bind {A B : Type} (m : py A) (k : A -> py B) : py B :=
  match m with
  | inl e => inl e
  | inr a => k a
  end.

Notation "x <- m ;; k" := (bind m (fun x => k))
  (at level 61, m at next level, right associativity).

(* ------------------------------------------------------------------ *)
(** ** Numbers

    Python resolves [*], [/] and [== 0] by the type of the operands.  The
    arithmetic helpers are written once over this interface; the solver
    always passes binary64 values (it converts with [float(...)]), while
    the instance at exact rationals ([fractions.Fraction]) is the arithmetic
    in which the algebraic identities of the law hold without rounding. *)

Class Number (num : Type) : Type := {
  nmul : num -> num -> num;
  ndiv : num -> num -> num;
  nis_zero : num -> bool
}.

#[export] Instance float_Number : Number float := {
  nmul := PrimFloat.mul;
  ndiv := PrimFloat.div;
  nis_zero := fun y => (y =? 0)%float
}.

#[export] Instance Q_Number : Number Q := {
  nmul := Qmult;
  ndiv := Qdiv;
  nis_zero := fun y => Qeq_bool y 0
}.

(** [x / y]: true division raises [ZeroDivisionError] on a zero divisor
    (for floats: [+0.0] and [-0.0]); it never returns an infinity for a
    finite dividend and zero divisor as bare IEEE division would. *)
Definition truediv {num : Type} `{Number num} (x y : num) : py num :=
  if nis_zero y then raise ZeroDivisionError else ret (ndiv x y).

(* ------------------------------------------------------------------ *)
(** ** Arithmetic helpers (lines 134-143) *)

Section ArithmeticHelpers.
Context {num : Type} `{Number num}.

Definition compute_force (mass accel : num) : num :=
  nmul mass accel.

Definition compute_accel (force mass : num) : py num :=
  truediv force mass.

Definition compute_mass (force accel : num) : py num :=
  truediv force accel.
End ArithmeticHelpers.

(* ------------------------------------------------------------------ *)
(** ** The numeric error classifier (lines 146-162) *)

Definition classify_error (student_value correct_value : option float)
  : py string :=
  match student_value with
  | None => ret "missing"
  | Some s =>
    match correct_value with
    | None => ret "other"
    | Some c =>
      diff <- (if (c =? 0)%float
               then ret (abs (s - c))%float
               else truediv (abs (s - c))%float (abs c)) ;;
      if (diff <=? 0.01)%float then ret "none"
      else if (0.05 <? diff)%float then ret "math"
      else ret "other"
    end
  end.

(* ------------------------------------------------------------------ *)
(** ** Strings: [str.lower] and the [in] operator *)

(** [str.lower], on the ASCII letters; other bytes are left as they are
    (strings are byte sequences here, and the names the code compares a
    lower-cased string with are ASCII). *)
Definition lower_ascii (c : ascii) : ascii :=
  let n := nat_of_ascii c in
  if andb (Nat.leb 65 n) (Nat.leb n 90) then ascii_of_nat (n + 32) else c.

Fixpoint lower (s : string) : string :=
  match s with
  | EmptyString => EmptyString
  | String c rest => String (lower_ascii c) (lower rest)
  end.

(** [needle in hay] for two strings. *)
Fixpoint contains (needle hay : string) : bool :=
  if String.prefix needle hay then true
  else match hay with
       | EmptyString => false
       | String _ rest => contains needle rest
       end.

(** Truthiness of a string: non-empty. *)
Definition nonempty (s : string) : bool :=
  match s with
  | EmptyString => false
  | String _ _ => true
  end.

(** [xs[0]]. *)
Definition index0 {A : Type} (xs : list A) : py A :=
  match xs with
  | [] => raise IndexError
  | x :: _ => ret x
  end.

(* ------------------------------------------------------------------ *)
(** ** The ontology (lines 12-75)

    The OWL file is loaded once at start-up; here it is a parameter of every
    function that reads the global [onto].  [None] is the failed load.

    An individual the code reads as [onto.Name] is an optional field:
    owlready2 looks the name up in the ontology and yields [None] when the
    ontology does not define it.  It never raises [AttributeError] for
    such a name, so [hasattr(onto, "Name")] holds for every name and the
    [hasattr] guards of the code decide nothing. *)

Record Individual : Type := {
  iri : string;
  label : list string;
  displayText : list string
}.

Record Ontology : Type := {
  Kilogram : option Individual;
  Newton : option Individual;
  MeterPerSecondSquared : option Individual;
  Hint_Units : option Individual;
  Hint_Formula : option Individual;
  Hint_Arithmetic : option Individual;
  F_equals_m_a : option Individual;
  a_equals_F_div_m : option Individual;
  m_equals_F_div_a : option Individual
}.

(** Lines 82-92. *)
Definition get_unit_individual (onto : option Ontology) (kind : string)
  : option Individual :=
  match onto with
  | None => None
  | Some o =>
    if lower kind =? "mass" then Kilogram o
    else if lower kind =? "force" then Newton o
    else if lower kind =? "acceleration" then MeterPerSecondSquared o
    else None
  end.

Definition generic_hint : string :=
  "Think about which variable is missing and how to rearrange F = m × a.".

(** [h.displayText[0]] for [h] read from the ontology: [None] has no
    attribute [displayText], and an individual without a display text has
    the empty list. *)
Definition displayText0 (h : option Individual) : py string :=
  match h with
  | Some ind => index0 (displayText ind)
  | None => raise AttributeError
  end.

(** Lines 95-113.  With the ontology loaded the three [hasattr] guards
    hold, so the category alone selects the individual that is read. *)
Definition get_hint_from_ontology (onto : option Ontology)
  (error_type : string) : py string :=
  match onto with
  | None =>
    if error_type =? "unit" then
      ret "Check your units: use N for force, kg for mass, and m/s^2 for acceleration."
    else if error_type =? "math" then
      ret "Re-check your calculation – did you multiply or divide correctly?"
    else ret generic_hint
  | Some o =>
    if error_type =? "unit" then displayText0 (Hint_Units o)
    else if error_type =? "formula" then displayText0 (Hint_Formula o)
    else if error_type =? "math" then displayText0 (Hint_Arithmetic o)
    else ret generic_hint
  end.

(** Lines 116-127; the result is [None] also when the ontology does not
    define the formula of the target. *)
Definition choose_formula_for_target (onto : option Ontology)
  (target : string) : option Individual :=
  match onto with
  | None => None
  | Some o =>
    let t := lower target in
    if t =? "force" then F_equals_m_a o
    else if t =? "acceleration" then a_equals_F_div_m o
    else if t =? "mass" then m_equals_F_div_a o
    else None
  end.

(* ------------------------------------------------------------------ *)
(** ** Requests and responses *)

(** A JSON value as [to_float] sees it: [JNumber x] is any value that
    [float(...)] converts to [x] (a number, or a string that parses as one);
    [JMissing] is an absent key (the [None] of [dict.get]); [JOther] is any
    value on which [float(...)] raises [TypeError] or [ValueError], the two
    exceptions [to_float] catches.  (An integer literal beyond the range of
    a double, on which [float(...)] raises [OverflowError], is not
    represented.) *)
Inductive json_value : Type :=
| JMissing
| JNumber (x : float)
| JOther.

(** Lines 211-215 and 307-311. *)
Definition to_float (x : json_value) : option float :=
  match x with
  | JNumber v => Some v
  | JMissing | JOther => None
  end.

Record Quantity : Type := {
  q_value : json_value;
  q_unit : string
}.

(** [{}]: what [dict.get(key, {})] yields for an absent key. *)
Definition empty_quantity : Quantity :=
  {| q_value := JMissing; q_unit := "" |}.

Record Given : Type := {
  g_mass : option Quantity;
  g_acceleration : option Quantity;
  g_force : option Quantity
}.

Record Request : Type := {
  target : string;
  given : Given;
  studentAnswer : Quantity
}.

(** [given_dict.get(key, {}).get("value")]. *)
Definition get_value (entry : option Quantity) : json_value :=
  match entry with
  | Some q => q_value q
  | None => q_value empty_quantity
  end.

Record SolveResult : Type := {
  correct : bool;
  correctValue : float;
  res_target : string;
  errorType : string;
  hint : option string
}.

Inductive Body : Type :=
| ErrorBody (error : string)
| ResultBody (r : SolveResult).

(** What the endpoint answers: a JSON body with its status, or an exception
    that no handler of the endpoint catches. *)
Inductive Response : Type :=
| Json (status : nat) (body : Body)
| Unhandled (e : exn).

(* ------------------------------------------------------------------ *)
(** ** Ontology-based problem creation (lines 169-230) *)

(** A Mass, Acceleration or Force individual.  Its generated name
    ([uuid4]) plays no part in what follows and is left out. *)
Record QuantityInd : Type := {
  hasUnit : list Individual;
  numericalValue : list float
}.

Inductive slot : Type := SMass | SAcceleration | SForce.

(** The NumericProblem individual; [hasQuantity] refers to the three
    quantity individuals of the store below. *)
Record Problem : Type := {
  usesFormula : list Individual;
  hasQuantity : list slot
}.

(** The three quantity individuals of one request; the solver writes into
    one of them. *)
Record Store : Type := {
  m_ind : QuantityInd;
  a_ind : QuantityInd;
  f_ind : QuantityInd
}.

Definition opt_to_list {A : Type} (o : option A) : list A :=
  match o with
  | Some a => [a]
  | None => []
  end.

Definition create_problem_from_request (onto : option Ontology)
  (target : string) (given_dict : Given) : option (Problem * Store) :=
  match onto with
  | None => None
  | Some _ =>
    let formula := choose_formula_for_target onto target in
    let unit_m := get_unit_individual onto "mass" in
    let unit_a := get_unit_individual onto "acceleration" in
    let unit_f := get_unit_individual onto "force" in
    let p := {| usesFormula := opt_to_list formula;
                hasQuantity := [SMass; SAcceleration; SForce] |} in
    let m_val := to_float (get_value (g_mass given_dict)) in
    let a_val := to_float (get_value (g_acceleration given_dict)) in
    let f_val := to_float (get_value (g_force given_dict)) in
    Some (p, {| m_ind := {| hasUnit := opt_to_list unit_m;
                            numericalValue := opt_to_list m_val |};
                a_ind := {| hasUnit := opt_to_list unit_a;
                            numericalValue := opt_to_list a_val |};
                f_ind := {| hasUnit := opt_to_list unit_f;
                            numericalValue := opt_to_list f_val |} |})
  end.

(* ------------------------------------------------------------------ *)
(** ** The solver (lines 233-267) *)

(** [float(q.numericalValue[0]) if ... q.numericalValue else None]. *)
Definition extract (q : QuantityInd) : option float :=
  match numericalValue q with
  | [] => None
  | v :: _ => Some v
  end.

Definition set_numericalValue (q : QuantityInd) (v : float) : QuantityInd :=
  {| hasUnit := hasUnit q; numericalValue := [v] |}.

(** The result, and the store as the call leaves it: an exception is raised
    before any write, so the store is then the one received. *)
Definition solve_with_ontology (target : string) (p : Problem) (st : Store)
  : py float * Store :=
  let m_val := extract (m_ind st) in
  let a_val := extract (a_ind st) in
  let f_val := extract (f_ind st) in
  if target =? "force" then
    match m_val, a_val with
    | Some m, Some a =>
      let correct_value := compute_force m a in
      (ret correct_value,
       {| m_ind := m_ind st; a_ind := a_ind st;
          f_ind := set_numericalValue (f_ind st) correct_value |})
    | _, _ =>
      (raise (ValueError "Mass and acceleration are required to compute force."), st)
    end
  else if target =? "acceleration" then
    match f_val, m_val with
    | Some f, Some m =>
      match compute_accel f m with
      | inr correct_value =>
        (ret correct_value,
         {| m_ind := m_ind st;
            a_ind := set_numericalValue (a_ind st) correct_value;
            f_ind := f_ind st |})
      | inl e => (raise e, st)
      end
    | _, _ =>
      (raise (ValueError "Force and mass are required to compute acceleration."), st)
    end
  else if target =? "mass" then
    match f_val, a_val with
    | Some f, Some a =>
      match compute_mass f a with
      | inr correct_value =>
        (ret correct_value,
         {| m_ind := set_numericalValue (m_ind st) correct_value;
            a_ind := a_ind st;
            f_ind := f_ind st |})
      | inl e => (raise e, st)
      end
    | _, _ =>
      (raise (ValueError "Force and acceleration are required to compute mass."), st)
    end
  else (raise (ValueError "Invalid target"), st).

(* ------------------------------------------------------------------ *)
(** ** The endpoint [POST /api/solve] (lines 274-350) *)

(** Lines 316-328: the unit check, which starts from ["none"]. *)
Definition unit_check (onto : option Ontology) (target student_unit : string)
  : string :=
  let error_type := "none" in
  let expected_unit := get_unit_individual onto target in
  match expected_unit with
  | Some u =>
    if nonempty student_unit then
      let expected_str := hd "" (label u) in
      if (target =? "force") && negb (contains "N" student_unit) then "unit"
      else if (target =? "mass") && negb (contains "kg" student_unit) then "unit"
      else if (target =? "acceleration") && negb (contains "m/s" student_unit)
      then "unit"
      else error_type
    else error_type
  | None => error_type
  end.

(** Lines 338-341: the category the hint is asked for. *)
Definition hint_key (error_type : string) : string :=
  if error_type =? "unit" then "unit"
  else if error_type =? "math" then "math"
  else if error_type =? "formula" then "formula"
  else "other".

(** Lines 306-350: what follows a successful solve. *)
Definition diagnose (onto : option Ontology) (target : string)
  (student : Quantity) (correct_value : float) : py SolveResult :=
  let student_value := to_float (q_value student) in
  let student_unit := q_unit student in
  let error_type := unit_check onto target student_unit in
  error_type <- (if error_type =? "none"
                 then classify_error student_value (Some correct_value)
                 else ret error_type) ;;
  let is_correct := error_type =? "none" in
  hint <- (if negb is_correct
           then h <- get_hint_from_ontology onto (hint_key error_type) ;;
                ret (Some h)
           else ret None) ;;
  ret {| correct := is_correct;
         correctValue := correct_value;
         res_target := target;
         errorType := error_type;
         hint := hint |}.

Definition solve (onto : option Ontology) (data : Request) : Response :=
  let target := lower (target data) in
  let given := given data in
  let student := studentAnswer data in
  match onto, create_problem_from_request onto target given with
  | Some _, Some (p, st) =>
    match fst (solve_with_ontology target p st) with
    | inl (ValueError msg) => Json 400 (ErrorBody msg)
    | inl ZeroDivisionError =>
      Json 400 (ErrorBody "Division by zero – check your input values.")
    | inl e => Unhandled e
    | inr correct_value =>
      match diagnose onto target student correct_value with
      | inr response => Json 200 (ResultBody response)
      | inl e => Unhandled e
      end
    end
  | _, _ =>
    Json 500
      (ErrorBody "Ontology not available; cannot perform intelligent reasoning.")
  end.

(* ------------------------------------------------------------------ *)
(** ** A sample ontology and sample requests *)

(** An ontology with every individual the code looks up. *)
Definition sample_ontology : Ontology :=
  {| Kilogram := Some {| iri := "Kilogram"; label := ["kg"]; displayText := [] |};
     Newton := Some {| iri := "Newton"; label := ["N"]; displayText := [] |};
     MeterPerSecondSquared :=
       Some {| iri := "MeterPerSecondSquared"; label := ["m/s^2"];
               displayText := [] |};
     Hint_Units :=
       Some {| iri := "Hint_Units"; label := [];
               displayText := ["Check the unit of your answer."] |};
     Hint_Formula :=
       Some {| iri := "Hint_Formula"; label := [];
               displayText := ["Which rearrangement of F = m a applies?"] |};
     Hint_Arithmetic :=
       Some {| iri := "Hint_Arithmetic"; label := [];
               displayText := ["Check your arithmetic."] |};
     F_equals_m_a := Some {| iri := "F_equals_m_a"; label := []; displayText := [] |};
     a_equals_F_div_m :=
       Some {| iri := "a_equals_F_div_m"; label := []; displayText := [] |};
     m_equals_F_div_a :=
       Some {| iri := "m_equals_F_div_a"; label := []; displayText := [] |} |}.

(** A quantity entry with a numeric value. *)
Definition known (x : float) (u : string) : option Quantity :=
  Some {| q_value := JNumber x; q_unit := u |}.

(** The request of the endpoint's docstring. *)
Definition docstring_request : Request :=
  {| target := "force";
     given := {| g_mass := known 4 "kg";
                 g_acceleration := known 3 "m/s^2";
                 g_force := None |};
     studentAnswer := {| q_value := JNumber 11; q_unit := "N" |} |}.

(** The first scenario of the specification: the given entries carry
    values only. *)
Definition scenario_request : Request :=
  {| target := "force";
     given := {| g_mass := Some {| q_value := JNumber 4; q_unit := "" |};
                 g_acceleration := Some {| q_value := JNumber 3; q_unit := "" |};
                 g_force := None |};
     studentAnswer := {| q_value := JNumber 11; q_unit := "N" |} |}.

(** The right answer in the right unit. *)
Definition request_right_answer : Request :=
  {| target := "force";
     given := {| g_mass := known 4 "kg";
                 g_acceleration := known 3 "m/s^2";
                 g_force := None |};
     studentAnswer := {| q_value := JNumber 12; q_unit := "N" |} |}.

(** The right value in a unit that is not a force unit. *)
Definition request_force_in_kg : Request :=
  {| target := "force";
     given := {| g_mass := known 4 "kg";
                 g_acceleration := known 3 "m/s^2";
                 g_force := None |};
     studentAnswer := {| q_value := JNumber 12; q_unit := "kg" |} |}.

(** A force problem without the mass. *)
Definition request_force_without_mass : Request :=
  {| target := "force";
     given := {| g_mass := None;
                 g_acceleration := known 3 "m/s^2";
                 g_force := None |};
     studentAnswer := {| q_value := JNumber 12; q_unit := "N" |} |}.

(** A mass problem with a zero acceleration. *)
Definition request_mass_zero_acceleration : Request :=
  {| target := "mass";
     given := {| g_mass := None;
                 g_acceleration := known 0 "m/s^2";
                 g_force := known 12 "N" |};
     studentAnswer := {| q_value := JNumber 4; q_unit := "kg" |} |}.

(** An acceleration problem with a zero mass. *)
Definition request_acceleration_zero_mass : Request :=
  {| target := "acceleration";
     given := {| g_mass := known 0 "kg";
                 g_acceleration := None;
                 g_force := known 12 "N" |};
     studentAnswer := {| q_value := JNumber 3; q_unit := "m/s^2" |} |}.

(** A target that is not a quantity of the law, and one that is, in
    capitals. *)
Definition request_energy : Request :=
  {| target := "energy";
     given := {| g_mass := known 4 "kg";
                 g_acceleration := known 3 "m/s^2";
                 g_force := None |};
     studentAnswer := {| q_value := JNumber 12; q_unit := "J" |} |}.

Definition request_FORCE : Request :=
  {| target := "FORCE";
     given := {| g_mass := known 4 "kg";
                 g_acceleration := known 3 "m/s^2";
                 g_force := None |};
     studentAnswer := {| q_value := JNumber 12; q_unit := "N" |} |}.

(** The results the sample ontology gives. *)
Definition result_right_answer : SolveResult :=
  {| correct := true; correctValue := 12; res_target := "force";
     errorType := "none"; hint := None |}.

Definition result_docstring : SolveResult :=
  {| correct := false; correctValue := 12; res_target := "force";
     errorType := "math"; hint := Some "Check your arithmetic." |}.

Definition result_force_in_kg : SolveResult :=
  {| correct := false;
     correctValue := 12;
     res_target := "force";
     errorType := "unit";
     hint := Some "Check the unit of your answer." |}.

(* ------------------------------------------------------------------ *)
(** ** The vocabulary of the specification *)

(** The deviation measure in the words of the specification (4.4):
    the absolute error against a zero correct value, the relative error
    otherwise.  All operations are binary64. *)
Definition diff (student correct : float) : float :=
  (if correct =? 0 then abs (student - correct)
   else abs (student - correct) / abs correct)%float.

(** The three bands, read off the measure. *)
Definition band (d : float) : string :=
  if (d <=? 0.01)%float then "none"
  else if (0.05 <? d)%float then "math" else "other".

(** The three target names. *)
Definition targets : list string := ["mass"; "acceleration"; "force"].

(** The symbol the student's unit must contain, in the words of the
    specification (4.5). *)
Definition required_symbol (target : string) : option string :=
  if target =? "force" then Some "N"
  else if target =? "mass" then Some "kg"
  else if target =? "acceleration" then Some "m/s"
  else None.

(** The value a request supplies for a given quantity, if any. *)
Definition supplied (entry : option Quantity) : option float :=
  to_float (get_value entry).

(** The messages of two of the 400 responses. *)
Definition msg_force : string :=
  "Mass and acceleration are required to compute force.".
Definition msg_division : string :=
  "Division by zero – check your input values.".

(* ------------------------------------------------------------------ *)
(** ** What the problem builder hands to the solver *)

(** The three slots: the ontology's units, and the values of the request. *)
Definition built_store (o : Ontology) (g : Given) : Store :=
  {| m_ind := {| hasUnit := opt_to_list (Kilogram o);
                 numericalValue := opt_to_list (to_float (get_value (g_mass g))) |};
     a_ind := {| hasUnit := opt_to_list (MeterPerSecondSquared o);
                 numericalValue :=
                   opt_to_list (to_float (get_value (g_acceleration g))) |};
     f_ind := {| hasUnit := opt_to_list (Newton o);
                 numericalValue := opt_to_list (to_float (get_value (g_force g))) |} |}.

(** The problem individual the builder creates for a target. *)
Definition built_problem (o : Ontology) (t : string) : Problem :=
  {| usesFormula := opt_to_list (choose_formula_for_target (Some o) t);
     hasQuantity := [SMass; SAcceleration; SForce] |}.

(* ------------------------------------------------------------------ *)
(** ** Whole numbers in binary64 *)

(** The whole number [n] in binary64. *)
Fixpoint whole (n : nat) : float :=
  match n with
  | O => 0%float
  | S k => (whole k + 1)%float
  end.

(** Both inversions are defined and return their input. *)
Definition round_trips (m a : float) : bool :=
  match compute_mass (compute_force m a) a,
        compute_accel (compute_force m a) m with
  | inr m', inr a' => ((m' =? m) && (a' =? a))%float
  | _, _ => false
  end.

(* ------------------------------------------------------------------ *)
(** ** Locating the ontology file (lines 17-41)

    The files the start-up code probes are outside the program: a file
    system answers whether a candidate exists beside the script
    ([Path(__file__).with_name(name).exists()]) or in the working directory
    ([Path(name).exists()]), and what [str(path.resolve())] is for each. *)

Definition candidate_names : list string :=
  ["Newton_2ndLaw.owl"; "Newton_2ndLaw.rdf"; "Newton_law.ttl"].

Record FileSystem : Type := {
  beside_exists : string -> bool;
  beside_resolve : string -> string;
  cwd_exists : string -> bool;
  cwd_resolve : string -> string
}.

(** Lines 24-29: the first candidate that exists beside the script. *)
Definition found_path (fs : FileSystem) : option string :=
  find (beside_exists fs) candidate_names.

(** Lines 31-41; the [else] of the second loop runs when no candidate
    exists in the working directory either. *)
Definition ONTO_PATH (fs : FileSystem) : string :=
  match found_path fs with
  | Some name => beside_resolve fs name
  | None =>
    match find (cwd_exists fs) candidate_names with
    | Some name => cwd_resolve fs name
    | None => hd "" candidate_names
    end
  end.

(* ------------------------------------------------------------------ *)
(** ** More vocabulary for the properties *)

(** The five error categories a response can carry. *)
Definition categories : list string :=
  ["none"; "missing"; "math"; "unit"; "other"].

(** The messages of the 400 responses. *)
Definition msg_acceleration : string :=
  "Force and mass are required to compute acceleration.".
Definition msg_mass : string :=
  "Force and acceleration are required to compute mass.".

(** [needle] occurs in [hay]. *)
Definition occurs_in (needle hay : string) : Prop :=
  exists pre post : string, hay = pre ++ needle ++ post.

(** [text] is the first display text of a hint individual that the
    ontology defines. *)
Definition first_text (h : option Individual) (text : string) : Prop :=
  exists ind rest, h = Some ind /\ displayText ind = text :: rest.

(** The slot the solver writes for a target. *)
Definition target_slot (t : string) (st : Store) : option QuantityInd :=
  if t =? "force" then Some (f_ind st)
  else if t =? "acceleration" then Some (a_ind st)
  else if t =? "mass" then Some (m_ind st)
  else None.

(** An ontology that does not define the unit hint, and a file system
    with the RDF and Turtle files beside the script and the OWL file in the
    working directory only. *)
Definition ontology_without_unit_hint : Ontology :=
  {| Kilogram := Kilogram sample_ontology;
     Newton := Newton sample_ontology;
     MeterPerSecondSquared := MeterPerSecondSquared sample_ontology;
     Hint_Units := None;
     Hint_Formula := Hint_Formula sample_ontology;
     Hint_Arithmetic := Hint_Arithmetic sample_ontology;
     F_equals_m_a := F_equals_m_a sample_ontology;
     a_equals_F_div_m := a_equals_F_div_m sample_ontology;
     m_equals_F_div_a := m_equals_F_div_a sample_ontology |}.

Definition sample_file_system : FileSystem :=
  {| beside_exists := fun name => negb (name =? "Newton_2ndLaw.owl");
     beside_resolve := fun name => "/srv/backend/" ++ name;
     cwd_exists := fun name => name =? "Newton_2ndLaw.owl";
     cwd_resolve := fun name => "/home/user/" ++ name |}.

(** Requests for the sample ontology: an acceleration and a mass problem,
    a force problem that also supplies a force, one with the target in
    capitals and other given units, and an answer without a number. *)
Definition request_acceleration : Request :=
  {| target := "acceleration";
     given := {| g_mass := known 4 "kg";
                 g_acceleration := None;
                 g_force := known 12 "N" |};
     studentAnswer := {| q_value := JNumber 3; q_unit := "m/s^2" |} |}.

Definition request_mass : Request :=
  {| target := "mass";
     given := {| g_mass := None;
                 g_acceleration := known 3 "m/s^2";
                 g_force := known 12 "N" |};
     studentAnswer := {| q_value := JNumber 4; q_unit := "kg" |} |}.

Definition request_acceleration_without_force : Request :=
  {| target := "acceleration";
     given := {| g_mass := known 4 "kg";
                 g_acceleration := None;
                 g_force := None |};
     studentAnswer := {| q_value := JNumber 3; q_unit := "m/s^2" |} |}.

Definition request_mass_without_acceleration : Request :=
  {| target := "mass";
     given := {| g_mass := None;
                 g_acceleration := None;
                 g_force := known 12 "N" |};
     studentAnswer := {| q_value := JNumber 4; q_unit := "kg" |} |}.

Definition request_Force_other_units : Request :=
  {| target := "Force";
     given := {| g_mass := known 4 "g";
                 g_acceleration := known 3 "";
                 g_force := known 99 "lbf" |};
     studentAnswer := {| q_value := JNumber 11; q_unit := "N" |} |}.

Definition request_no_number : Request :=
  {| target := "force";
     given := {| g_mass := known 4 "kg";
                 g_acceleration := known 3 "m/s^2";
                 g_force := None |};
     studentAnswer := {| q_value := JOther; q_unit := "N" |} |}.

Definition result_no_number : SolveResult :=
  {| correct := false; correctValue := 12; res_target := "force";
     errorType := "missing"; hint := Some generic_hint |}.

(* ================================================================== *)
(** * Properties *)

(* ------------------------------------------------------------------ *)
(** ** Facts about binary64 comparisons, from their specification *)

Module FloatFacts.
Local Open Scope float_scope.

(** Swapping the operands of a comparison reverses its outcome; an
    unordered pair (a NaN on either side) stays unordered. *)
Lemma SFcompare_antisym (x y : spec_float) :
  SFcompare y x = option_map CompOpp (SFcompare x y).
Proof.
  destruct x as [sx|sx| |sx mx ex], y as [sy|sy| |sy my ey]; simpl;
    try reflexivity;
    try (destruct sx; reflexivity);
    try (destruct sy; reflexivity);
    try (destruct sx, sy; reflexivity).
  destruct sx, sy; simpl; try reflexivity;
    rewrite (Z.compare_antisym ex ey);
    destruct (ex ?= ey)%Z eqn:E; simpl; try reflexivity; f_equal;
    change (PosDef.Pos.compare_cont Eq my mx) with (Pos.compare my mx);
    change (PosDef.Pos.compare_cont Eq mx my) with (Pos.compare mx my).
  - rewrite (Pos.compare_antisym mx my). reflexivity.
  - apply Pos.compare_antisym.
Qed.

Lemma ltb_leb_false (x y : float) : (x <? y) = true -> (y <=? x) = false.
Proof.
  rewrite FloatAxioms.ltb_spec, FloatAxioms.leb_spec. unfold SFltb, SFleb.
  rewrite (SFcompare_antisym (Prim2SF x) (Prim2SF y)).
  destruct (SFcompare (Prim2SF x) (Prim2SF y)) as [[| |]|]; simpl; congruence.
Qed.

Lemma leb_ltb_false (x y : float) : (x <=? y) = true -> (y <? x) = false.
Proof.
  rewrite FloatAxioms.ltb_spec, FloatAxioms.leb_spec. unfold SFltb, SFleb.
  rewrite (SFcompare_antisym (Prim2SF x) (Prim2SF y)).
  destruct (SFcompare (Prim2SF x) (Prim2SF y)) as [[| |]|]; simpl; congruence.
Qed.


(** [abs] maps exactly the two zeros to a zero. *)
Lemma abs_eqb_zero (c : float) : (abs c =? 0) = (c =? 0).
Proof.
  rewrite !FloatAxioms.eqb_spec, abs_spec. unfold SFeqb.
  destruct (Prim2SF c) as [s|s| |s m e]; simpl; try reflexivity;
    destruct s; reflexivity.
Qed.

Lemma abs_opp (x : float) : abs (- x) = abs x.
Proof.
  apply Prim2SF_inj. rewrite !abs_spec, opp_spec.
  destruct (Prim2SF x); reflexivity.
Qed.

(** Between positive finite values the exponent decides first. *)
Lemma SF_above_not_below (m1 m2 : positive) (e1 e2 : Z) (d : spec_float) :
  (e2 < e1)%Z ->
  SFltb (S754_finite false m1 e1) d = true ->
  SFleb d (S754_finite false m2 e2) = false.
Proof.
  intros He. unfold SFltb, SFleb.
  destruct d as [s|s| |s m e]; simpl; try congruence.
  - destruct s; congruence.
  - destruct s; try congruence.
    destruct (e1 ?= e)%Z eqn:E1; destruct (e ?= e2)%Z eqn:E2; try congruence;
      try (apply Z.compare_eq in E1); try (apply Z.compare_eq in E2);
      rewrite ?Z.compare_lt_iff, ?Z.compare_gt_iff in *; lia.
Qed.

(** The two thresholds of the classifier, as the binary64 values the
    decimal literals denote. *)
Lemma Prim2SF_001 : Prim2SF 0.01 = S754_finite false 5764607523034235 (-59).
Proof. vm_compute. reflexivity. Qed.

Lemma Prim2SF_005 : Prim2SF 0.05 = S754_finite false 7205759403792794 (-57).
Proof. vm_compute. reflexivity. Qed.

Lemma thresholds_binary64 :
  0.01 = 0x1.47ae147ae147bp-7 /\ 0.05 = 0x1.999999999999ap-5.
Proof. split; reflexivity. Qed.

Lemma above_005_not_within_001 (d : float) :
  (0.05 <? d) = true -> (d <=? 0.01) = false.
Proof.
  rewrite FloatAxioms.ltb_spec, FloatAxioms.leb_spec, Prim2SF_001, Prim2SF_005.
  apply SF_above_not_below. lia.
Qed.
End FloatFacts.

(* ------------------------------------------------------------------ *)
(** ** The error classifier *)

Module Classifier.
Import FloatFacts.
Local Open Scope float_scope.

(** The relative-error division of the code never raises: it is guarded
    by [correct_value == 0], and [abs] has the same zeros. *)
Lemma classify_error_values (s c : float) :
  classify_error (Some s) (Some c) = ret (band (diff s c)).
Proof.
  unfold classify_error, diff, band, truediv; simpl.
  destruct (c =? 0) eqn:Hc; simpl.
  - destruct (abs (s - c) <=? 0.01); [reflexivity|].
    destruct (0.05 <? abs (s - c)); reflexivity.
  - rewrite abs_eqb_zero, Hc. simpl.
    destruct (abs (s - c) / abs c <=? 0.01); [reflexivity|].
    destruct (0.05 <? abs (s - c) / abs c); reflexivity.
Qed.

Lemma classify_error_total (sv cv : option float) :
  exists r, classify_error sv cv = ret r.
Proof.
  destruct sv as [s|]; [destruct cv as [c|]|].
  - rewrite classify_error_values. eauto.
  - simpl. eauto.
  - simpl. eauto.
Qed.

(** A deviation that is not a number falls through both comparisons. *)
Lemma classify_error_nan (c : float) :
  classify_error (Some nan) (Some c) = ret "other".
Proof.
  rewrite classify_error_values. unfold diff, band.
  assert (Hs : nan - c = nan).
  { apply Prim2SF_inj. rewrite sub_spec.
    destruct (Prim2SF c); reflexivity. }
  rewrite Hs.
  destruct (c =? 0); [reflexivity|].
  assert (Hd : abs nan / abs c = nan).
  { apply Prim2SF_inj. rewrite div_spec.
    destruct (Prim2SF (abs c)); reflexivity. }
  rewrite Hd. reflexivity.
Qed.

(** C1. [classify_error] meets the contract of the specification: an
    absent student value gives "missing"; a present student value with an
    absent correct value gives "other"; otherwise, with [diff] the
    absolute error when the correct value is zero and the relative error
    when it is not, the result is "none" when [diff <= 0.01], "math" when
    [diff > 0.05] and "other" when [0.01 < diff <= 0.05]; a [diff] of
    exactly 0.01 gives "none" and of exactly 0.05 gives "other". *)
Theorem classify_error_contract (s c : float) (cv : option float) :
  classify_error None cv = ret "missing" /\
  classify_error (Some s) None = ret "other" /\
  ((diff s c <=? 0.01) = true ->
     classify_error (Some s) (Some c) = ret "none") /\
  ((0.05 <? diff s c) = true ->
     classify_error (Some s) (Some c) = ret "math") /\
  ((0.01 <? diff s c) = true -> (diff s c <=? 0.05) = true ->
     classify_error (Some s) (Some c) = ret "other") /\
  (diff s c = 0.01 -> classify_error (Some s) (Some c) = ret "none") /\
  (diff s c = 0.05 -> classify_error (Some s) (Some c) = ret "other").
Proof.
  rewrite classify_error_values. unfold band.
  repeat split.
  - intros H. rewrite H. reflexivity.
  - intros H. rewrite (above_005_not_within_001 _ H), H. reflexivity.
  - intros Hlo Hhi.
    rewrite (ltb_leb_false _ _ Hlo), (leb_ltb_false _ _ Hhi). reflexivity.
  - intros H. rewrite H. reflexivity.
  - intros H. rewrite H. reflexivity.
Qed.

(** The contract at concrete answers: 101 against 100 has relative error
    exactly 0.01, 105 against 100 exactly 0.05, 105.01 against 100 is
    above 0.05; against a zero correct value the error is absolute. *)
Lemma classify_error_contract_witness :
  diff 101 100 = 0.01 /\ classify_error (Some 101) (Some 100) = ret "none" /\
  diff 105 100 = 0.05 /\ classify_error (Some 105) (Some 100) = ret "other" /\
  (0.05 <? diff 105.01 100) = true /\
  classify_error (Some 105.01) (Some 100) = ret "math" /\
  diff 0.01 0 = 0.01 /\ classify_error (Some 0.01) (Some 0) = ret "none" /\
  classify_error None (Some 100) = ret "missing" /\
  classify_error (Some 101) None = ret "other".
Proof.
  pose proof (classify_error_contract 101 100 (Some 100)) as H1.
  pose proof (classify_error_contract 105 100 None) as H2.
  pose proof (classify_error_contract 105.01 100 None) as H3.
  pose proof (classify_error_contract 0.01 0 None) as H4.
  destruct H1 as (Hm & Ho & _ & _ & _ & H1 & _).
  destruct H2 as (_ & _ & _ & _ & _ & _ & H2).
  destruct H3 as (_ & _ & _ & H3 & _).
  destruct H4 as (_ & _ & _ & _ & _ & H4 & _).
  repeat apply conj;
    [ reflexivity | apply H1; reflexivity
    | reflexivity | apply H2; reflexivity
    | reflexivity | apply H3; reflexivity
    | reflexivity | apply H4; reflexivity
    | exact Hm | exact Ho ].
Defined.

(** Errors of opposite sign have the same magnitude. *)
Lemma opposite_errors_same_magnitude (s1 s2 c : float) :
  s2 - c = - (s1 - c) -> abs (s1 - c) = abs (s2 - c).
Proof. intros H. rewrite H, abs_opp. reflexivity. Qed.

(** The classifier sees the student value only through the magnitude of
    the error [student - correct]. *)
Lemma classify_error_by_magnitude (s1 s2 c : float) :
  abs (s1 - c) = abs (s2 - c) ->
  classify_error (Some s1) (Some c) = classify_error (Some s2) (Some c).
Proof.
  intros H. rewrite !classify_error_values. unfold diff. rewrite H.
  reflexivity.
Qed.

(** C8, as the classifier has it.  [classify_error] is symmetric in the
    sign of the error it computes: two student values whose computed
    errors [student - correct] against the same correct value are opposite
    (or of the same magnitude) get the same category; and so do [c + e]
    and [c - e] whenever these two binary64 sums carry the errors [e] and
    [-e], that is, whenever [(c + e) - c] and [(c - e) - c] are computed
    as [e] and [-e]. *)
Theorem classify_error_sign_symmetric (c e s1 s2 : float) :
  (s2 - c = - (s1 - c) ->
     classify_error (Some s1) (Some c) = classify_error (Some s2) (Some c)) /\
  (abs (s1 - c) = abs (s2 - c) ->
     classify_error (Some s1) (Some c) = classify_error (Some s2) (Some c)) /\
  ((c + e) - c = e -> (c - e) - c = - e ->
     classify_error (Some (c + e)) (Some c) =
     classify_error (Some (c - e)) (Some c)).
Proof.
  split; [|split].
  - intros H. apply classify_error_by_magnitude.
    apply opposite_errors_same_magnitude. exact H.
  - apply classify_error_by_magnitude.
  - intros Hp Hm. apply classify_error_by_magnitude.
    rewrite Hp, Hm, abs_opp. reflexivity.
Qed.

(** Symmetric answers around 12: 13 and 11 (both "math"), 12.5 and 11.5
    (both "other"), 12.0625 and 11.9375 (both "none"). *)
Lemma classify_error_sign_symmetric_witness :
  classify_error (Some 13) (Some 12) = classify_error (Some 11) (Some 12) /\
  classify_error (Some (12 + 0.5)) (Some 12) =
    classify_error (Some (12 - 0.5)) (Some 12) /\
  classify_error (Some (12 + 0.0625)) (Some 12) =
    classify_error (Some (12 - 0.0625)) (Some 12) /\
  classify_error (Some 13) (Some 12) = ret "math" /\
  classify_error (Some 12.5) (Some 12) = ret "other" /\
  classify_error (Some 12.0625) (Some 12) = ret "none".
Proof.
  repeat apply conj.
  - apply (proj1 (classify_error_sign_symmetric 12 1 13 11)). reflexivity.
  - apply (proj2 (proj2 (classify_error_sign_symmetric 12 0.5 0 0)));
      reflexivity.
  - apply (proj2 (proj2 (classify_error_sign_symmetric 12 0.0625 0 0)));
      reflexivity.
  - reflexivity.
  - reflexivity.
  - reflexivity.
Defined.

(** The symmetry is one of the classifier, not of binary64 addition: a
    caller that forms [c + e] and [c - e] in binary64 hands over two
    values whose errors may differ in magnitude.  Around 1, the sums with
    e = 0.009999999999999922 are 1.01 and 0.9900000000000001. *)
Lemma rounded_sums_differ_in_magnitude :
  let c := 1 in
  let e := 0.009999999999999922 in
  abs ((c + e) - c) = 0.010000000000000009 /\
  abs ((c - e) - c) = 0.0099999999999998979 /\
  classify_error (Some (c + e)) (Some c) = ret "other" /\
  classify_error (Some (c - e)) (Some c) = ret "none".
Proof. repeat apply conj; reflexivity. Qed.

(** C8 as worded, for every correct value [c] and every [e > 0], does
    not hold in binary64.  With c = 1 and e = 0.009999999999999922 the
    answer [c + e] is "other" and [c - e] is "none"; with c = 31 and
    e = 1.55 the answer [c + e] is "other" and [c - e] is "math": the
    relative errors are rounded to either side of the thresholds 0.01 and
    0.05. *)
Lemma sign_symmetry_fails_on_rounded_sums :
  ((0 <? 0.009999999999999922) = true /\
   classify_error (Some (1 + 0.009999999999999922)) (Some 1) = ret "other" /\
   classify_error (Some (1 - 0.009999999999999922)) (Some 1) = ret "none") /\
  ((0 <? 1.55) = true /\
   classify_error (Some (31 + 1.55)) (Some 31) = ret "other" /\
   classify_error (Some (31 - 1.55)) (Some 31) = ret "math") /\
  (classify_error (Some (1 + 0.009999999999999922)) (Some 1) =
   classify_error (Some (1 - 0.009999999999999922)) (Some 1) -> False) /\
  (classify_error (Some (31 + 1.55)) (Some 31) =
   classify_error (Some (31 - 1.55)) (Some 31) -> False).
Proof.
  repeat apply conj; try reflexivity; vm_compute; discriminate.
Qed.

(** C10. The classifier's results are "missing", "other", "none" and
    "math": it always returns one of the four and never "unit". *)
Theorem classify_error_codomain (sv cv : option float) :
  exists r,
    classify_error sv cv = ret r /\
    In r ["missing"; "other"; "none"; "math"] /\
    r <> "unit".
Proof.
  destruct sv as [s|]; [destruct cv as [c|]|].
  - rewrite classify_error_values. eexists; split; [reflexivity|].
    unfold band.
    destruct (diff s c <=? 0.01); [|destruct (0.05 <? diff s c)];
      simpl; split; try discriminate; tauto.
  - exists "other". simpl. split; [reflexivity|].
    split; [tauto|discriminate].
  - exists "missing". simpl. split; [reflexivity|].
    split; [tauto|discriminate].
Qed.
End Classifier.

(* ------------------------------------------------------------------ *)
(** ** The solver *)

Module Solver.
Import FloatFacts.

Lemma create_problem_loaded (o : Ontology) (t : string) (g : Given) :
  create_problem_from_request (Some o) t g =
  Some (built_problem o t, built_store o g).
Proof. reflexivity. Qed.

Lemma extract_built (o : Ontology) (g : Given) :
  extract (m_ind (built_store o g)) = to_float (get_value (g_mass g)) /\
  extract (a_ind (built_store o g)) = to_float (get_value (g_acceleration g)) /\
  extract (f_ind (built_store o g)) = to_float (get_value (g_force g)).
Proof.
  unfold extract; simpl.
  destruct (to_float (get_value (g_mass g))),
           (to_float (get_value (g_acceleration g))),
           (to_float (get_value (g_force g))); auto.
Qed.

(** The solver on each target, by the values the slots hold. *)
Lemma solve_force (p : Problem) (st : Store) :
  solve_with_ontology "force" p st =
  match extract (m_ind st), extract (a_ind st) with
  | Some m, Some a =>
    (ret (compute_force m a),
     {| m_ind := m_ind st; a_ind := a_ind st;
        f_ind := set_numericalValue (f_ind st) (compute_force m a) |})
  | _, _ => (raise (ValueError msg_force), st)
  end.
Proof. reflexivity. Qed.

Lemma solve_mass_zero (p : Problem) (st : Store) (f z : float) :
  extract (f_ind st) = Some f -> extract (a_ind st) = Some z ->
  (z =? 0)%float = true ->
  solve_with_ontology "mass" p st = (raise ZeroDivisionError, st).
Proof.
  intros Hf Ha Hz. unfold solve_with_ontology. simpl.
  rewrite Hf, Ha. unfold compute_mass, truediv. simpl. rewrite Hz.
  reflexivity.
Qed.

Lemma solve_acceleration_zero (p : Problem) (st : Store) (f z : float) :
  extract (f_ind st) = Some f -> extract (m_ind st) = Some z ->
  (z =? 0)%float = true ->
  solve_with_ontology "acceleration" p st = (raise ZeroDivisionError, st).
Proof.
  intros Hf Hm Hz. unfold solve_with_ontology. simpl.
  rewrite Hf, Hm. unfold compute_accel, truediv. simpl. rewrite Hz.
  reflexivity.
Qed.

Lemma solve_invalid_target (t : string) (p : Problem) (st : Store) :
  ~ In t targets ->
  solve_with_ontology t p st = (raise (ValueError "Invalid target"), st).
Proof.
  intros Ht. unfold solve_with_ontology.
  destruct (t =? "force") eqn:E1.
  { apply String.eqb_eq in E1. exfalso. apply Ht. subst. simpl. tauto. }
  destruct (t =? "acceleration") eqn:E2.
  { apply String.eqb_eq in E2. exfalso. apply Ht. subst. simpl. tauto. }
  destruct (t =? "mass") eqn:E3.
  { apply String.eqb_eq in E3. exfalso. apply Ht. subst. simpl. tauto. }
  reflexivity.
Qed.

(** A store leaves the solver changed in at most the target's slot. *)
Lemma solve_frame (t : string) (p : Problem) (st : Store) :
  let st' := snd (solve_with_ontology t p st) in
  (t <> "mass" -> m_ind st' = m_ind st) /\
  (t <> "acceleration" -> a_ind st' = a_ind st) /\
  (t <> "force" -> f_ind st' = f_ind st).
Proof.
  unfold solve_with_ontology.
  destruct (t =? "force") eqn:E1;
    [|destruct (t =? "acceleration") eqn:E2;
      [|destruct (t =? "mass") eqn:E3]];
    try (apply String.eqb_eq in E1); try (apply String.eqb_eq in E2);
    try (apply String.eqb_eq in E3); subst.
  - destruct (extract (m_ind st)), (extract (a_ind st)); simpl;
      repeat split; congruence.
  - destruct (extract (f_ind st)), (extract (m_ind st)); simpl;
      try (repeat split; congruence).
    destruct (compute_accel f f0); simpl; repeat split; congruence.
  - destruct (extract (f_ind st)), (extract (a_ind st)); simpl;
      try (repeat split; congruence).
    destruct (compute_mass f f0); simpl; repeat split; congruence.
  - simpl. repeat split; reflexivity.
Qed.
End Solver.

(* ------------------------------------------------------------------ *)
(** ** The endpoint, with the ontology loaded *)

Module Endpoint.
Import FloatFacts Solver.

(** With the ontology loaded the endpoint answers by the solver's
    outcome on the built store. *)
Lemma solve_loaded (o : Ontology) (data : Request) :
  solve (Some o) data =
  let t := lower (target data) in
  match fst (solve_with_ontology t (built_problem o t)
               (built_store o (given data))) with
  | inl (ValueError msg) => Json 400 (ErrorBody msg)
  | inl ZeroDivisionError => Json 400 (ErrorBody msg_division)
  | inl e => Unhandled e
  | inr correct_value =>
    match diagnose (Some o) t (studentAnswer data) correct_value with
    | inr response => Json 200 (ResultBody response)
    | inl e => Unhandled e
    end
  end.
Proof. reflexivity. Qed.

(** C5. Target "force": when the mass or the acceleration is absent the
    solver raises the missing-input error and leaves the store as it
    was, and the endpoint answers 400 with that message; when both are
    present the solver returns mass * acceleration and writes it into the
    force slot, the mass and acceleration slots staying as they were. *)
Theorem force_needs_mass_and_acceleration
  (p : Problem) (st : Store) (o : Ontology) (data : Request) :
  (extract (m_ind st) = None \/ extract (a_ind st) = None ->
     solve_with_ontology "force" p st = (raise (ValueError msg_force), st)) /\
  (forall m a : float,
     extract (m_ind st) = Some m -> extract (a_ind st) = Some a ->
     let (r, st') := solve_with_ontology "force" p st in
     r = ret (m * a)%float /\
     numericalValue (f_ind st') = [(m * a)%float] /\
     hasUnit (f_ind st') = hasUnit (f_ind st) /\
     m_ind st' = m_ind st /\ a_ind st' = a_ind st) /\
  (target data = "force" ->
     supplied (g_mass (given data)) = None \/
     supplied (g_acceleration (given data)) = None ->
     solve (Some o) data = Json 400 (ErrorBody msg_force)).
Proof.
  split; [|split].
  - rewrite solve_force. intros [H|H]; rewrite H; [reflexivity|].
    destruct (extract (m_ind st)); reflexivity.
  - intros m a Hm Ha. rewrite solve_force, Hm, Ha. simpl.
    repeat split.
  - intros Ht Habs. rewrite solve_loaded, Ht. cbv zeta.
    change (lower "force") with "force".
    rewrite solve_force.
    destruct (extract_built o (given data)) as (Em & Ea & _).
    rewrite Em, Ea. unfold supplied in Habs.
    destruct Habs as [H|H]; rewrite H; [reflexivity|].
    destruct (to_float (get_value (g_mass (given data)))); reflexivity.
Qed.

Lemma force_needs_mass_and_acceleration_witness :
  solve (Some sample_ontology) request_force_without_mass =
    Json 400 (ErrorBody msg_force) /\
  (let (r, st') :=
     solve_with_ontology "force"
       {| usesFormula := []; hasQuantity := [] |}
       (built_store sample_ontology (given docstring_request)) in
   r = ret 12%float /\
   numericalValue (f_ind st') = [12%float] /\
   hasUnit (f_ind st') =
     hasUnit (f_ind (built_store sample_ontology (given docstring_request))) /\
   m_ind st' = m_ind (built_store sample_ontology (given docstring_request)) /\
   a_ind st' = a_ind (built_store sample_ontology (given docstring_request))).
Proof.
  split.
  - apply (proj2 (proj2 (force_needs_mass_and_acceleration
                           {| usesFormula := []; hasQuantity := [] |}
                           (built_store sample_ontology (given docstring_request))
                           sample_ontology request_force_without_mass)));
      [reflexivity | left; reflexivity].
  - apply (proj1 (proj2 (force_needs_mass_and_acceleration
                           {| usesFormula := []; hasQuantity := [] |}
                           (built_store sample_ontology (given docstring_request))
                           sample_ontology request_force_without_mass))
             4%float 3%float); reflexivity.
Defined.

(** C3. Target "mass" with the force present and an acceleration equal
    to zero: the solver raises [ZeroDivisionError] on the built store,
    writing nothing, and the endpoint answers 400 with an error object
    (no result, hence no [correct] field).  Likewise target
    "acceleration" with a mass equal to zero. *)
Theorem zero_divisor_is_a_400
  (o : Ontology) (data : Request) (f z : float) :
  (z =? 0)%float = true ->
  (target data = "mass" ->
   supplied (g_force (given data)) = Some f ->
   supplied (g_acceleration (given data)) = Some z ->
   compute_mass f z = raise ZeroDivisionError /\
   (exists p st,
      create_problem_from_request (Some o) "mass" (given data) = Some (p, st) /\
      solve_with_ontology "mass" p st = (raise ZeroDivisionError, st)) /\
   solve (Some o) data = Json 400 (ErrorBody msg_division)) /\
  (target data = "acceleration" ->
   supplied (g_force (given data)) = Some f ->
   supplied (g_mass (given data)) = Some z ->
   compute_accel f z = raise ZeroDivisionError /\
   (exists p st,
      create_problem_from_request (Some o) "acceleration" (given data)
        = Some (p, st) /\
      solve_with_ontology "acceleration" p st = (raise ZeroDivisionError, st)) /\
   solve (Some o) data = Json 400 (ErrorBody msg_division)).
Proof.
  intros Hz.
  destruct (extract_built o (given data)) as (Em & Ea & Ef).
  unfold supplied. split; intros Ht Hf Hd.
  - split; [|split].
    + unfold compute_mass, truediv. simpl. rewrite Hz. reflexivity.
    + do 2 eexists. split; [apply create_problem_loaded|].
      apply (solve_mass_zero _ _ f z); congruence.
    + rewrite solve_loaded, Ht. cbv zeta.
      change (lower "mass") with "mass".
      rewrite (solve_mass_zero _ _ f z); [reflexivity| | |]; congruence.
  - split; [|split].
    + unfold compute_accel, truediv. simpl. rewrite Hz. reflexivity.
    + do 2 eexists. split; [apply create_problem_loaded|].
      apply (solve_acceleration_zero _ _ f z); congruence.
    + rewrite solve_loaded, Ht. cbv zeta.
      change (lower "acceleration") with "acceleration".
      rewrite (solve_acceleration_zero _ _ f z); [reflexivity| | |];
        congruence.
Qed.

Lemma zero_divisor_is_a_400_witness :
  (0 =? 0)%float = true /\
  solve (Some sample_ontology) request_mass_zero_acceleration =
    Json 400 (ErrorBody msg_division) /\
  solve (Some sample_ontology) request_acceleration_zero_mass =
    Json 400 (ErrorBody msg_division).
Proof.
  split; [reflexivity|]. split.
  - apply (proj1 (zero_divisor_is_a_400 sample_ontology
                    request_mass_zero_acceleration 12%float 0%float
                    eq_refl));
      reflexivity.
  - apply (proj2 (zero_divisor_is_a_400 sample_ontology
                    request_acceleration_zero_mass 12%float 0%float
                    eq_refl));
      reflexivity.
Defined.

(** Negative zero is a zero divisor as well. *)
Lemma negative_zero_divisor :
  compute_mass 12%float (-0)%float = raise ZeroDivisionError.
Proof. reflexivity. Qed.

(** C4, as the code has it.  The endpoint lower-cases the target before
    anything else: when the lower-cased target is none of "mass",
    "acceleration" and "force", the solver raises the invalid-target
    error, writing nothing, and the endpoint answers 400 with
    [{error: "Invalid target"}] and no solve result.  The solver itself
    does so for every target outside the three names. *)
Theorem invalid_target_is_a_400
  (o : Ontology) (data : Request) (t : string) (p : Problem) (st : Store) :
  ~ In (lower (target data)) targets ->
  (~ In t targets ->
     solve_with_ontology t p st = (raise (ValueError "Invalid target"), st)) /\
  (exists p' st',
     create_problem_from_request (Some o) (lower (target data)) (given data)
       = Some (p', st') /\
     solve_with_ontology (lower (target data)) p' st'
       = (raise (ValueError "Invalid target"), st')) /\
  solve (Some o) data = Json 400 (ErrorBody "Invalid target").
Proof.
  intros Ht. split; [|split].
  - apply solve_invalid_target.
  - do 2 eexists. split; [apply create_problem_loaded|].
    apply solve_invalid_target. exact Ht.
  - rewrite solve_loaded. cbv zeta.
    rewrite (solve_invalid_target _ _ _ Ht). reflexivity.
Qed.

Lemma not_a_target_energy : ~ In "energy" targets.
Proof. simpl. intros [H|[H|[H|H]]]; try discriminate; exact H. Qed.

Lemma invalid_target_is_a_400_witness :
  solve (Some sample_ontology) request_energy =
    Json 400 (ErrorBody "Invalid target") /\
  solve_with_ontology "energy" {| usesFormula := []; hasQuantity := [] |}
    (built_store sample_ontology (given request_energy)) =
    (raise (ValueError "Invalid target"),
     built_store sample_ontology (given request_energy)).
Proof.
  pose proof (invalid_target_is_a_400 sample_ontology request_energy
                "energy" {| usesFormula := []; hasQuantity := [] |}
                (built_store sample_ontology (given request_energy))
                not_a_target_energy) as (Hs & _ & He).
  split; [exact He | exact (Hs not_a_target_energy)].
Defined.

(** The target "FORCE" is none of the three names, yet the endpoint
    solves the request as a force problem. *)
Lemma uppercase_target_is_solved :
  (In (target request_FORCE) targets -> False) /\
  solve (Some sample_ontology) request_FORCE =
    Json 200 (ResultBody {| correct := true;
                            correctValue := 12;
                            res_target := "force";
                            errorType := "none";
                            hint := None |}) /\
  solve (Some sample_ontology) request_FORCE <>
    Json 400 (ErrorBody "Invalid target").
Proof.
  split; [|split].
  - simpl. intros [H|[H|[H|H]]]; try discriminate; exact H.
  - reflexivity.
  - discriminate.
Qed.

Lemma unit_check_fails (onto : option Ontology) (t u sym : string) :
  required_symbol t = Some sym ->
  nonempty u = true -> contains sym u = false ->
  get_unit_individual onto t <> None ->
  unit_check onto t u = "unit".
Proof.
  unfold required_symbol, unit_check. intros Hsym Hu Hc Hexp.
  destruct (get_unit_individual onto t) as [ind|]; [|congruence].
  rewrite Hu. cbv zeta.
  destruct (t =? "force").
  { injection Hsym as <-. rewrite Hc. reflexivity. }
  destruct (t =? "mass").
  { injection Hsym as <-. rewrite Hc. reflexivity. }
  destruct (t =? "acceleration").
  { injection Hsym as <-. rewrite Hc. reflexivity. }
  discriminate.
Qed.

(** The check is made against the ontology's unit individual for the
    target (line 320): without one, no unit is flagged. *)
Lemma unit_check_without_unit_individual (onto : option Ontology)
  (t u : string) :
  get_unit_individual onto t = None -> unit_check onto t u = "none".
Proof. unfold unit_check. intros H. rewrite H. reflexivity. Qed.

(** A failed unit check decides the diagnosis; the numeric classifier
    is not consulted. *)
Lemma diagnose_unit_mismatch (onto : option Ontology) (t : string)
  (student : Quantity) (cv : float) :
  unit_check onto t (q_unit student) = "unit" ->
  diagnose onto t student cv =
  (h <- get_hint_from_ontology onto "unit" ;;
   ret {| correct := false; correctValue := cv; res_target := t;
          errorType := "unit"; hint := Some h |}).
Proof.
  intros H. unfold diagnose. rewrite H. simpl.
  change (hint_key "unit") with "unit".
  destruct (get_hint_from_ontology onto "unit"); reflexivity.
Qed.

Lemma success_is_a_diagnosis (o : Ontology) (data : Request) (r : SolveResult) :
  solve (Some o) data = Json 200 (ResultBody r) ->
  exists cv,
    diagnose (Some o) (lower (target data)) (studentAnswer data) cv = inr r.
Proof.
  rewrite solve_loaded. cbv zeta.
  destruct (fst (solve_with_ontology _ _ _)) as [[msg| | |]|cv];
    try discriminate.
  destruct (diagnose _ _ _ cv) as [e|r'] eqn:D; [discriminate|].
  intros H. injection H as <-. eauto.
Qed.

(** C2. A non-empty student unit that lacks the symbol required for the
    target (force: "N", mass: "kg", acceleration: "m/s"), checked against
    an ontology that has the target's unit individual: every result the
    endpoint returns for such a request has [errorType = "unit"] and
    [correct = false] and carries a hint, whatever the student's value;
    and the endpoint does return that result whenever the solver yields
    a correct value and the ontology yields the unit hint. *)
Theorem unit_mismatch_takes_precedence
  (o : Ontology) (data : Request) (sym : string) :
  required_symbol (lower (target data)) = Some sym ->
  nonempty (q_unit (studentAnswer data)) = true ->
  contains sym (q_unit (studentAnswer data)) = false ->
  get_unit_individual (Some o) (lower (target data)) <> None ->
  (forall r : SolveResult,
     solve (Some o) data = Json 200 (ResultBody r) ->
     errorType r = "unit" /\ correct r = false /\ hint r <> None) /\
  (forall (cv : float) (h : string),
     fst (solve_with_ontology (lower (target data))
            (built_problem o (lower (target data)))
            (built_store o (given data))) = ret cv ->
     get_hint_from_ontology (Some o) "unit" = ret h ->
     solve (Some o) data =
     Json 200 (ResultBody {| correct := false;
                             correctValue := cv;
                             res_target := lower (target data);
                             errorType := "unit";
                             hint := Some h |})).
Proof.
  intros Hsym Hu Hc Hexp.
  pose proof (unit_check_fails _ _ _ _ Hsym Hu Hc Hexp) as Hcheck.
  split.
  - intros r Hres.
    destruct (success_is_a_diagnosis _ _ _ Hres) as (cv & D).
    rewrite (diagnose_unit_mismatch (Some o) _ _ cv Hcheck) in D.
    destruct (get_hint_from_ontology (Some o) "unit"); [discriminate|].
    simpl in D. injection D as <-. simpl.
    repeat split; discriminate.
  - intros cv h Hcv Hh. rewrite solve_loaded. cbv zeta.
    rewrite Hcv. unfold ret at 1. cbv iota beta.
    rewrite (diagnose_unit_mismatch (Some o) _ _ cv Hcheck), Hh.
    reflexivity.
Qed.

Lemma unit_mismatch_takes_precedence_witness :
  solve (Some sample_ontology) request_force_in_kg =
    Json 200 (ResultBody result_force_in_kg) /\
  classify_error (Some 12%float) (Some (correctValue result_force_in_kg)) =
    ret "none" /\
  errorType result_force_in_kg = "unit" /\
  correct result_force_in_kg = false /\
  hint result_force_in_kg <> None.
Proof.
  assert (Hexp : get_unit_individual (Some sample_ontology)
                   (lower (target request_force_in_kg)) <> None)
    by discriminate.
  pose proof (unit_mismatch_takes_precedence sample_ontology
                request_force_in_kg "N" eq_refl eq_refl eq_refl Hexp)
    as (Hall & Hsome).
  split; [|split; [reflexivity|]].
  - apply (Hsome 12%float "Check the unit of your answer."); reflexivity.
  - apply (Hall result_force_in_kg). reflexivity.
Defined.

Lemma scenario_classified :
  classify_error (Some 11%float) (Some (compute_force 4 3)%float) = ret "math".
Proof. reflexivity. Qed.

Lemma unit_N_passes (o : Ontology) : unit_check (Some o) "force" "N" = "none".
Proof.
  unfold unit_check.
  destruct (get_unit_individual (Some o) "force"); reflexivity.
Qed.

(** C7. Mass 4, acceleration 3, target "force", answer 11 N: the
    endpoint returns the correct value 12, the category "math" (the
    relative error 1/12 is above 0.05), [correct = false], and as hint
    the text of the ontology's arithmetic hint. *)
Theorem scenario_answer_11_for_12
  (o : Ontology) (h : Individual) (text : string) (others : list string) :
  Hint_Arithmetic o = Some h ->
  displayText h = text :: others ->
  solve (Some o) scenario_request =
    Json 200 (ResultBody {| correct := false;
                            correctValue := 12;
                            res_target := "force";
                            errorType := "math";
                            hint := Some text |}) /\
  diff 11 12 = 0.083333333333333329%float /\
  (0.05 <? diff 11 12)%float = true.
Proof.
  intros Hh Ht. split; [|split; reflexivity].
  rewrite solve_loaded. cbv zeta.
  change (lower (target scenario_request)) with "force".
  rewrite solve_force.
  destruct (extract_built o (given scenario_request)) as (Em & Ea & _).
  rewrite Em, Ea.
  change (supplied (g_mass (given scenario_request))) with (Some 4%float).
  change (to_float (get_value (g_mass (given scenario_request))))
    with (Some 4%float).
  change (to_float (get_value (g_acceleration (given scenario_request))))
    with (Some 3%float).
  cbv beta iota. unfold fst, diagnose.
  change (q_unit (studentAnswer scenario_request)) with "N".
  rewrite unit_N_passes.
  change ("none" =? "none") with true. cbv iota.
  change (to_float (q_value (studentAnswer scenario_request)))
    with (Some 11%float).
  unfold ret at 1. cbv iota beta.
  rewrite scenario_classified. simpl. rewrite Hh. simpl. rewrite Ht.
  reflexivity.
Qed.

Lemma scenario_answer_11_for_12_witness :
  solve (Some sample_ontology) scenario_request =
    Json 200 (ResultBody {| correct := false;
                            correctValue := 12;
                            res_target := "force";
                            errorType := "math";
                            hint := Some "Check your arithmetic." |}).
Proof.
  apply (proj1 (scenario_answer_11_for_12 sample_ontology
                  {| iri := "Hint_Arithmetic"; label := [];
                     displayText := ["Check your arithmetic."] |}
                  "Check your arithmetic." [] eq_refl eq_refl)).
Defined.

(** What [diagnose] returns is consistent: [correct] says the category
    is "none", and a hint is attached exactly when it is not. *)
Lemma diagnose_consistent (onto : option Ontology) (t : string)
  (student : Quantity) (cv : float) (r : SolveResult) :
  diagnose onto t student cv = inr r ->
  correct r = (errorType r =? "none") /\
  (hint r = None <-> correct r = true).
Proof.
  unfold diagnose.
  destruct (if unit_check onto t (q_unit student) =? "none"
            then classify_error (to_float (q_value student)) (Some cv)
            else ret (unit_check onto t (q_unit student)))
    as [e|et]; simpl; [discriminate|].
  destruct (et =? "none") eqn:E; simpl.
  - intros H. injection H as <-. simpl. rewrite E. tauto.
  - destruct (get_hint_from_ontology onto (hint_key et)) as [e|h]; simpl;
      [discriminate|].
    intros H. injection H as <-. simpl. rewrite E.
    split; [reflexivity|]. split; discriminate.
Qed.

(** C9. In every 200 response of the endpoint, [correct] is true exactly
    when [errorType] is "none", and [hint] is null exactly when [correct]
    is true. *)
Theorem success_response_consistent
  (onto : option Ontology) (data : Request) (r : SolveResult) :
  solve onto data = Json 200 (ResultBody r) ->
  (correct r = true <-> errorType r = "none") /\
  (hint r = None <-> correct r = true).
Proof.
  intros H. destruct onto as [o|]; [|discriminate].
  destruct (success_is_a_diagnosis _ _ _ H) as (cv & D).
  destruct (diagnose_consistent _ _ _ _ _ D) as (Hc & Hh).
  split; [|exact Hh].
  rewrite Hc. apply String.eqb_eq.
Qed.

Lemma success_response_consistent_witness :
  solve (Some sample_ontology) request_right_answer =
    Json 200 (ResultBody result_right_answer) /\
  ((correct result_right_answer = true <->
    errorType result_right_answer = "none") /\
   (hint result_right_answer = None <-> correct result_right_answer = true)) /\
  solve (Some sample_ontology) docstring_request =
    Json 200 (ResultBody result_docstring) /\
  ((correct result_docstring = true <-> errorType result_docstring = "none") /\
   (hint result_docstring = None <-> correct result_docstring = true)).
Proof.
  split; [reflexivity|]. split.
  - apply (success_response_consistent (Some sample_ontology)
             request_right_answer result_right_answer). reflexivity.
  - split; [reflexivity|].
    apply (success_response_consistent (Some sample_ontology)
             docstring_request result_docstring). reflexivity.
Defined.
End Endpoint.

(* ------------------------------------------------------------------ *)
(** ** The arithmetic helpers and their inversions *)

Module Arithmetic.
Import FloatFacts.







(** X16. On whole numbers the binary64 round trip is exact: for all
    whole-number masses and accelerations from 1 to 100, both inversions
    of the computed force are defined and return the mass and the
    acceleration themselves. *)
Lemma binary64_round_trip_whole (i j : nat) :
  (1 <= i <= 100)%nat -> (1 <= j <= 100)%nat ->
  round_trips (whole i) (whole j) = true.
Proof.
  intros Hi Hj.
  assert (H : forallb (fun i => forallb (fun j => round_trips (whole i) (whole j))
                                  (seq 1 100)) (seq 1 100) = true)
    by (vm_compute; reflexivity).
  rewrite forallb_forall in H.
  assert (Hi' : In i (seq 1 100)) by (apply in_seq; lia).
  specialize (H i Hi'). rewrite forallb_forall in H.
  apply H. apply in_seq. lia.
Qed.

Lemma binary64_round_trip_whole_witness :
  round_trips (whole 7) (whole 9) = true /\
  (whole 7 = 7 /\ whole 9 = 9 /\ compute_force 7 9 = 63 /\
   compute_mass 63 9 = ret 7 /\ compute_accel 63 7 = ret 9)%float.
Proof.
  split.
  - apply (binary64_round_trip_whole 7 9); lia.
  - repeat apply conj; reflexivity.
Defined.
End Arithmetic.

(* ------------------------------------------------------------------ *)
(** ** The solver: the two division targets, and what a call changes *)

Module SolverEffects.
Import FloatFacts Solver.

(** X1. Targets "acceleration" and "mass" with both inputs present and a
    divisor that is not zero: the solver returns force / mass (resp.
    force / acceleration) and writes it into the target's slot, keeping
    the slot's unit; the two input slots stay as they were. *)
Theorem division_targets_solved (p : Problem) (st : Store) (f d : float) :
  extract (f_ind st) = Some f ->
  (d =? 0)%float = false ->
  (extract (m_ind st) = Some d ->
   solve_with_ontology "acceleration" p st =
   (ret (f / d)%float,
    {| m_ind := m_ind st;
       a_ind := {| hasUnit := hasUnit (a_ind st);
                   numericalValue := [(f / d)%float] |};
       f_ind := f_ind st |})) /\
  (extract (a_ind st) = Some d ->
   solve_with_ontology "mass" p st =
   (ret (f / d)%float,
    {| m_ind := {| hasUnit := hasUnit (m_ind st);
                   numericalValue := [(f / d)%float] |};
       a_ind := a_ind st;
       f_ind := f_ind st |})).
Proof.
  intros Hf Hd. split; intros Hx; unfold solve_with_ontology; simpl;
    rewrite Hf, Hx; unfold compute_accel, compute_mass, truediv; simpl;
    rewrite Hd; reflexivity.
Qed.

Lemma division_targets_solved_witness :
  solve (Some sample_ontology) request_acceleration =
    Json 200 (ResultBody {| correct := true; correctValue := 3;
                            res_target := "acceleration";
                            errorType := "none"; hint := None |}) /\
  fst (solve_with_ontology "acceleration"
         (built_problem sample_ontology "acceleration")
         (built_store sample_ontology (given request_acceleration))) =
    ret (12 / 4)%float /\
  fst (solve_with_ontology "mass" (built_problem sample_ontology "mass")
         (built_store sample_ontology (given request_mass))) =
    ret (12 / 3)%float.
Proof.
  split; [reflexivity|]. split.
  - rewrite (proj1 (division_targets_solved
                      (built_problem sample_ontology "acceleration")
                      (built_store sample_ontology (given request_acceleration))
                      12%float 4%float eq_refl eq_refl) eq_refl).
    reflexivity.
  - rewrite (proj2 (division_targets_solved
                      (built_problem sample_ontology "mass")
                      (built_store sample_ontology (given request_mass))
                      12%float 3%float eq_refl eq_refl) eq_refl).
    reflexivity.
Defined.

(** X2. Targets "acceleration" and "mass" with a required input absent:
    the solver raises the [ValueError] that names the two inputs and
    leaves the store as it was; the endpoint answers 400 with that
    message. *)
Theorem division_targets_need_inputs
  (p : Problem) (st : Store) (o : Ontology) (data : Request) :
  (extract (f_ind st) = None \/ extract (m_ind st) = None ->
   solve_with_ontology "acceleration" p st =
   (raise (ValueError msg_acceleration), st)) /\
  (extract (f_ind st) = None \/ extract (a_ind st) = None ->
   solve_with_ontology "mass" p st = (raise (ValueError msg_mass), st)) /\
  (lower (target data) = "acceleration" ->
   supplied (g_force (given data)) = None \/
   supplied (g_mass (given data)) = None ->
   solve (Some o) data = Json 400 (ErrorBody msg_acceleration)) /\
  (lower (target data) = "mass" ->
   supplied (g_force (given data)) = None \/
   supplied (g_acceleration (given data)) = None ->
   solve (Some o) data = Json 400 (ErrorBody msg_mass)).
Proof.
  assert (Ha : forall q s,
             extract (f_ind s) = None \/ extract (m_ind s) = None ->
             solve_with_ontology "acceleration" q s =
             (raise (ValueError msg_acceleration), s)).
  { intros q s H. unfold solve_with_ontology. simpl.
    destruct H as [H|H]; rewrite H; [reflexivity|].
    destruct (extract (f_ind s)); reflexivity. }
  assert (Hm : forall q s,
             extract (f_ind s) = None \/ extract (a_ind s) = None ->
             solve_with_ontology "mass" q s =
             (raise (ValueError msg_mass), s)).
  { intros q s H. unfold solve_with_ontology. simpl.
    destruct H as [H|H]; rewrite H; [reflexivity|].
    destruct (extract (f_ind s)); reflexivity. }
  destruct (extract_built o (given data)) as (Em & Ea & Ef).
  unfold supplied.
  split; [apply Ha|]. split; [apply Hm|]. split; intros Ht H.
  - rewrite Endpoint.solve_loaded. cbv zeta.
    rewrite Ht, Ha; [reflexivity|]. rewrite Ef, Em. exact H.
  - rewrite Endpoint.solve_loaded. cbv zeta.
    rewrite Ht, Hm; [reflexivity|]. rewrite Ef, Ea. exact H.
Qed.

Lemma division_targets_need_inputs_witness :
  solve (Some sample_ontology) request_acceleration_without_force =
    Json 400 (ErrorBody msg_acceleration) /\
  solve (Some sample_ontology) request_mass_without_acceleration =
    Json 400 (ErrorBody msg_mass).
Proof.
  split.
  - apply (proj1 (proj2 (proj2 (division_targets_need_inputs
             (built_problem sample_ontology "acceleration")
             (built_store sample_ontology (given request_acceleration))
             sample_ontology request_acceleration_without_force))));
      [reflexivity | left; reflexivity].
  - apply (proj2 (proj2 (proj2 (division_targets_need_inputs
             (built_problem sample_ontology "mass")
             (built_store sample_ontology (given request_mass))
             sample_ontology request_mass_without_acceleration))));
      [reflexivity | right; reflexivity].
Defined.

(** X3. What a call of the solver changes.  When it raises, the exception
    is a [ValueError] or a [ZeroDivisionError] and the store is the one it
    received.  When it returns a value, that value is the only content of
    the target's slot, every slot keeps its unit, and the two other slots
    are unchanged. *)
Theorem solver_effect (t : string) (p : Problem) (st : Store) :
  let (r, st') := solve_with_ontology t p st in
  match r with
  | inl e =>
    st' = st /\ (e = ZeroDivisionError \/ exists msg, e = ValueError msg)
  | inr v =>
    (exists q, target_slot t st' = Some q /\ numericalValue q = [v]) /\
    hasUnit (m_ind st') = hasUnit (m_ind st) /\
    hasUnit (a_ind st') = hasUnit (a_ind st) /\
    hasUnit (f_ind st') = hasUnit (f_ind st) /\
    (t <> "mass" -> m_ind st' = m_ind st) /\
    (t <> "acceleration" -> a_ind st' = a_ind st) /\
    (t <> "force" -> f_ind st' = f_ind st)
  end.
Proof.
  unfold solve_with_ontology, target_slot.
  destruct (t =? "force") eqn:E1;
    [|destruct (t =? "acceleration") eqn:E2;
      [|destruct (t =? "mass") eqn:E3]].
  - destruct (extract (m_ind st)), (extract (a_ind st));
      try (split; [reflexivity|right; eauto]).
    simpl. repeat split; try reflexivity; eauto.
    apply String.eqb_eq in E1. congruence.
  - destruct (extract (f_ind st)), (extract (m_ind st));
      try (split; [reflexivity|right; eauto]).
    unfold compute_accel, truediv. simpl.
    destruct (f0 =? 0)%float; [split; [reflexivity|left; reflexivity]|].
    simpl. repeat split; try reflexivity; eauto.
    apply String.eqb_eq in E2. congruence.
  - destruct (extract (f_ind st)), (extract (a_ind st));
      try (split; [reflexivity|right; eauto]).
    unfold compute_mass, truediv. simpl.
    destruct (f0 =? 0)%float; [split; [reflexivity|left; reflexivity]|].
    simpl. repeat split; try reflexivity; eauto.
    apply String.eqb_eq in E3. congruence.
  - split; [reflexivity|right; eauto].
Qed.

(** X4. Solving again changes nothing: after a call that returned a
    value, a second call on the store it left returns the same value and
    leaves the same store. *)
Theorem solver_idempotent (t : string) (p : Problem) (st : Store) (v : float) :
  fst (solve_with_ontology t p st) = ret v ->
  solve_with_ontology t p (snd (solve_with_ontology t p st)) =
  (ret v, snd (solve_with_ontology t p st)).
Proof.
  unfold solve_with_ontology.
  destruct (t =? "force") eqn:E1;
    [|destruct (t =? "acceleration") eqn:E2;
      [|destruct (t =? "mass") eqn:E3]].
  - destruct (extract (m_ind st)) eqn:Hm, (extract (a_ind st)) eqn:Ha;
      simpl; try discriminate.
    intros H. injection H as <-. rewrite Hm, Ha. reflexivity.
  - destruct (extract (f_ind st)) eqn:Hf, (extract (m_ind st)) eqn:Hm;
      simpl; try discriminate.
    destruct (compute_accel f f0) eqn:Hc; simpl; [discriminate|].
    intros H. injection H as <-. rewrite Hf, Hm, Hc. reflexivity.
  - destruct (extract (f_ind st)) eqn:Hf, (extract (a_ind st)) eqn:Ha;
      simpl; try discriminate.
    destruct (compute_mass f f0) eqn:Hc; simpl; [discriminate|].
    intros H. injection H as <-. rewrite Hf, Ha, Hc. reflexivity.
  - simpl. discriminate.
Qed.

Lemma solver_idempotent_witness :
  let st' := snd (solve_with_ontology "force"
                    (built_problem sample_ontology "force")
                    (built_store sample_ontology (given docstring_request))) in
  extract (f_ind st') = Some 12%float /\
  solve_with_ontology "force" (built_problem sample_ontology "force") st' =
    (ret 12%float, st').
Proof.
  split; [reflexivity|].
  apply (solver_idempotent "force" (built_problem sample_ontology "force")
           (built_store sample_ontology (given docstring_request)) 12%float).
  reflexivity.
Defined.
End SolverEffects.

(* ------------------------------------------------------------------ *)
(** ** The endpoint: what a response depends on and what it can be *)

Module Responses.
Import FloatFacts Solver.

(** The value the solver computes depends on the store only through the
    values of the two slots that are not the target's. *)
Lemma solver_reads_inputs_only (t : string) (p p' : Problem) (st st' : Store) :
  (t <> "mass" -> extract (m_ind st) = extract (m_ind st')) ->
  (t <> "acceleration" -> extract (a_ind st) = extract (a_ind st')) ->
  (t <> "force" -> extract (f_ind st) = extract (f_ind st')) ->
  fst (solve_with_ontology t p st) = fst (solve_with_ontology t p' st').
Proof.
  intros Hm Ha Hf. unfold solve_with_ontology.
  destruct (t =? "force") eqn:E1;
    [|destruct (t =? "acceleration") eqn:E2;
      [|destruct (t =? "mass") eqn:E3]];
    try (apply String.eqb_eq in E1); try (apply String.eqb_eq in E2);
    try (apply String.eqb_eq in E3); subst.
  - rewrite <- Hm, <- Ha by discriminate.
    destruct (extract (m_ind st)), (extract (a_ind st)); reflexivity.
  - rewrite <- Hm, <- Hf by discriminate.
    destruct (extract (f_ind st)), (extract (m_ind st)); try reflexivity.
    destruct (compute_accel f f0); reflexivity.
  - rewrite <- Ha, <- Hf by discriminate.
    destruct (extract (f_ind st)), (extract (a_ind st)); try reflexivity.
    destruct (compute_mass f f0); reflexivity.
  - reflexivity.
Qed.

(** X5. Two requests get the same response when their targets agree up
    to letter case, their student answers are the same, and they supply
    the same numbers for the quantities other than the target: the units
    of the given quantities, and a value given for the target itself, do
    not matter. *)
Theorem response_depends_on
  (onto : option Ontology) (data data' : Request) :
  lower (target data) = lower (target data') ->
  studentAnswer data = studentAnswer data' ->
  (lower (target data) <> "mass" ->
   supplied (g_mass (given data)) = supplied (g_mass (given data'))) ->
  (lower (target data) <> "acceleration" ->
   supplied (g_acceleration (given data)) =
   supplied (g_acceleration (given data'))) ->
  (lower (target data) <> "force" ->
   supplied (g_force (given data)) = supplied (g_force (given data'))) ->
  solve onto data = solve onto data'.
Proof.
  intros Ht Hs Hm Ha Hf. destruct onto as [o|]; [|reflexivity].
  rewrite !Endpoint.solve_loaded. cbv zeta. rewrite <- Ht, <- Hs.
  destruct (extract_built o (given data)) as (Em & Ea & Ef).
  destruct (extract_built o (given data')) as (Em' & Ea' & Ef').
  rewrite (solver_reads_inputs_only (lower (target data))
             (built_problem o (lower (target data)))
             (built_problem o (lower (target data)))
             (built_store o (given data)) (built_store o (given data')));
    [reflexivity| | |]; intros H.
  - rewrite Em, Em'. exact (Hm H).
  - rewrite Ea, Ea'. exact (Ha H).
  - rewrite Ef, Ef'. exact (Hf H).
Qed.

Lemma response_depends_on_witness :
  solve (Some sample_ontology) request_Force_other_units =
  solve (Some sample_ontology) docstring_request.
Proof.
  apply (response_depends_on (Some sample_ontology)
           request_Force_other_units docstring_request);
    try reflexivity; intros H; exfalso; apply H; reflexivity.
Defined.


(** A value comes out of the solver for the three target names only. *)
Lemma solver_value_target (t : string) (p : Problem) (st : Store) (v : float) :
  fst (solve_with_ontology t p st) = ret v -> In t targets.
Proof.
  unfold solve_with_ontology.
  destruct (t =? "force") eqn:E1;
    [|destruct (t =? "acceleration") eqn:E2;
      [|destruct (t =? "mass") eqn:E3]];
    try (apply String.eqb_eq in E1); try (apply String.eqb_eq in E2);
    try (apply String.eqb_eq in E3); subst; simpl; try tauto.
  discriminate.
Qed.

(** The unit check has two outcomes. *)
Lemma unit_check_outcomes (onto : option Ontology) (t u : string) :
  unit_check onto t u = "none" \/ unit_check onto t u = "unit".
Proof.
  unfold unit_check.
  destruct (get_unit_individual onto t); [|tauto].
  destruct (nonempty u); [|tauto]. cbv zeta.
  destruct ((t =? "force") && negb (contains "N" u))%bool; [tauto|].
  destruct ((t =? "mass") && negb (contains "kg" u))%bool; [tauto|].
  destruct ((t =? "acceleration") && negb (contains "m/s" u))%bool; tauto.
Qed.

(** What [diagnose] does, step by step: the category is "unit" when the
    unit check fails and the classifier's otherwise; the hint is looked up
    for the category unless it is "none". *)
Lemma diagnose_steps (onto : option Ontology) (t : string)
  (student : Quantity) (cv : float) :
  diagnose onto t student cv =
  (et <- (if unit_check onto t (q_unit student) =? "unit" then ret "unit"
          else classify_error (to_float (q_value student)) (Some cv)) ;;
   h <- (if et =? "none" then ret None
         else h <- get_hint_from_ontology onto (hint_key et) ;; ret (Some h)) ;;
   ret {| correct := et =? "none"; correctValue := cv; res_target := t;
          errorType := et; hint := h |}).
Proof.
  unfold diagnose.
  destruct (unit_check_outcomes onto t (q_unit student)) as [H|H]; rewrite H;
    simpl.
  - destruct (classify_error (to_float (q_value student)) (Some cv)) as [e|et];
      simpl; [reflexivity|].
    destruct (et =? "none"); reflexivity.
  - reflexivity.
Qed.

(** The classifier's categories. *)
Lemma classifier_categories (sv cv : option float) (et : string) :
  classify_error sv cv = ret et ->
  In et ["missing"; "other"; "none"; "math"].
Proof.
  destruct sv as [s|]; [destruct cv as [c|]|].
  - rewrite Classifier.classify_error_values. unfold band.
    intros H. injection H as <-.
    destruct (diff s c <=? 0.01)%float; [simpl; tauto|].
    destruct (0.05 <? diff s c)%float; simpl; tauto.
  - simpl. intros H. injection H as <-. simpl. tauto.
  - simpl. intros H. injection H as <-. simpl. tauto.
Qed.

#[local] Arguments get_hint_from_ontology : simpl never.
#[local] Arguments classify_error : simpl never.
#[local] Arguments unit_check : simpl never.

(** The parts of a 200 response. *)
Lemma success_anatomy (onto : option Ontology) (data : Request)
  (r : SolveResult) :
  solve onto data = Json 200 (ResultBody r) ->
  exists o,
    onto = Some o /\
    fst (solve_with_ontology (lower (target data))
           (built_problem o (lower (target data)))
           (built_store o (given data))) = ret (correctValue r) /\
    res_target r = lower (target data) /\
    correct r = (errorType r =? "none") /\
    ((unit_check onto (lower (target data)) (q_unit (studentAnswer data))
        = "unit" /\ errorType r = "unit") \/
     (unit_check onto (lower (target data)) (q_unit (studentAnswer data))
        = "none" /\
      classify_error (to_float (q_value (studentAnswer data)))
        (Some (correctValue r)) = ret (errorType r))) /\
    (if errorType r =? "none" then hint r = None
     else exists h,
         get_hint_from_ontology onto (hint_key (errorType r)) = ret h /\
         hint r = Some h).
Proof.
  destruct onto as [o|]; [|discriminate].
  rewrite Endpoint.solve_loaded. cbv zeta.
  destruct (fst (solve_with_ontology _ _ _)) as [[msg| | |]|cv] eqn:S;
    try discriminate.
  rewrite diagnose_steps.
  destruct (unit_check_outcomes (Some o) (lower (target data))
              (q_unit (studentAnswer data))) as [U|U]; rewrite U; simpl.
  - destruct (classify_error (to_float (q_value (studentAnswer data)))
                (Some cv)) as [e|et] eqn:C; simpl; [discriminate|].
    destruct (et =? "none") eqn:N; simpl.
    + intros H. injection H as <-. simpl. exists o. rewrite N.
      repeat split; auto.
    + destruct (get_hint_from_ontology (Some o) (hint_key et)) as [e|h] eqn:G;
        simpl; [discriminate|].
      intros H. injection H as <-. simpl. exists o. rewrite N.
      repeat split; eauto.
  - destruct (get_hint_from_ontology (Some o) (hint_key "unit")) as [e|h] eqn:G;
      simpl; [discriminate|].
    intros H. injection H as <-. simpl. exists o.
    repeat split; eauto.
Qed.



(** X7. The content of a 200 response: [errorType] is one of the five
    categories, [target] is the request's target in lower case and one of
    the three names, and [correctValue] is the value the solver computed
    from the given quantities. *)
Theorem success_contents (onto : option Ontology) (data : Request)
  (r : SolveResult) :
  solve onto data = Json 200 (ResultBody r) ->
  In (errorType r) categories /\
  res_target r = lower (target data) /\
  In (res_target r) targets /\
  exists o,
    onto = Some o /\
    fst (solve_with_ontology (lower (target data))
           (built_problem o (lower (target data)))
           (built_store o (given data))) = ret (correctValue r).
Proof.
  intros H.
  destruct (success_anatomy _ _ _ H) as (o & -> & S & T & _ & E & _).
  repeat split.
  - destruct E as [(_ & ->)|(_ & C)]; [simpl; tauto|].
    apply classifier_categories in C. simpl in *. tauto.
  - exact T.
  - rewrite T. exact (solver_value_target _ _ _ _ S).
  - eauto.
Qed.


Lemma success_contents_witness :
  solve (Some sample_ontology) docstring_request =
    Json 200 (ResultBody result_docstring) /\
  In (errorType result_docstring) categories /\
  res_target result_docstring = lower (target docstring_request) /\
  In (res_target result_docstring) targets /\
  exists o,
    Some sample_ontology = Some o /\
    fst (solve_with_ontology (lower (target docstring_request))
           (built_problem o (lower (target docstring_request)))
           (built_store o (given docstring_request))) =
    ret (correctValue result_docstring).
Proof.
  split; [reflexivity|].
  apply (success_contents (Some sample_ontology) docstring_request
           result_docstring).
  reflexivity.
Defined.

(** With the ontology loaded, a category other than "unit", "formula"
    and "math" gets the generic hint. *)
Lemma generic_hint_for (o : Ontology) (k : string) :
  (k =? "unit") = false -> (k =? "formula") = false -> (k =? "math") = false ->
  get_hint_from_ontology (Some o) k = ret generic_hint.
Proof.
  intros Hu Hf Hm. unfold get_hint_from_ontology. rewrite Hu, Hf, Hm.
  reflexivity.
Qed.

(** X8. An answer without a usable number (absent, null, or not
    convertible by [float]) is never correct: a 200 response to it has
    [correct = false], and its category is "missing" with the generic
    hint, unless the unit check fails first and makes it "unit". *)
Theorem answer_without_number (onto : option Ontology) (data : Request)
  (r : SolveResult) :
  to_float (q_value (studentAnswer data)) = None ->
  solve onto data = Json 200 (ResultBody r) ->
  correct r = false /\
  (errorType r = "unit" \/
   (errorType r = "missing" /\ hint r = Some generic_hint)).
Proof.
  intros Hv H.
  destruct (success_anatomy _ _ _ H) as (o & -> & _ & _ & Hc & E & Hh).
  rewrite Hv in E.
  destruct E as [(_ & Et)|(_ & C)].
  - rewrite Hc, Et. split; [reflexivity|left; reflexivity].
  - unfold classify_error in C. injection C as C.
    rewrite Hc, <- C in *. split; [reflexivity|right].
    split; [reflexivity|].
    simpl in Hh. destruct Hh as (h & G & ->).
    change (hint_key "missing") with "other" in G.
    rewrite generic_hint_for in G by reflexivity.
    injection G as <-. reflexivity.
Qed.

Lemma answer_without_number_witness :
  solve (Some sample_ontology) request_no_number =
    Json 200 (ResultBody result_no_number) /\
  correct result_no_number = false /\
  (errorType result_no_number = "unit" \/
   (errorType result_no_number = "missing" /\
    hint result_no_number = Some generic_hint)).
Proof.
  split; [reflexivity|].
  apply (answer_without_number (Some sample_ontology) request_no_number
           result_no_number); reflexivity.
Defined.

(** A unit hint is looked up in [Hint_Units], an arithmetic hint in
    [Hint_Arithmetic]: the lookup returns the first display text of the
    individual, and raises when the ontology does not define the
    individual ([AttributeError]) or the individual has no display text
    ([IndexError]). *)
Lemma displayText0_returns (h : option Individual) (text : string) :
  displayText0 h = ret text <-> first_text h text.
Proof.
  unfold displayText0, first_text. split.
  - destruct h as [ind|]; [|discriminate].
    destruct (displayText ind) as [|x rest] eqn:D; simpl; [discriminate|].
    intros H. injection H as ->. eauto.
  - intros (ind & rest & -> & D). rewrite D. reflexivity.
Qed.

(** X9. Where the hint of a 200 response comes from.  There is no hint
    exactly when the category is "none".  For "unit" the hint is the first
    display text of the ontology's [Hint_Units] and for "math" that of
    [Hint_Arithmetic]: the ontology then defines that individual, with a
    display text.  For "other" and "missing" it is the generic text.  The
    text of [Hint_Formula] and the built-in unit and arithmetic texts are
    never sent.  When the unit check fails and the ontology does not
    define [Hint_Units], no response is built: [AttributeError] escapes. *)
Theorem hint_provenance (o : Ontology) (data : Request) :
  (forall r : SolveResult,
     solve (Some o) data = Json 200 (ResultBody r) ->
     match hint r with
     | None => errorType r = "none"
     | Some h =>
       (errorType r = "unit" /\ first_text (Hint_Units o) h) \/
       (errorType r = "math" /\ first_text (Hint_Arithmetic o) h) \/
       ((errorType r = "other" \/ errorType r = "missing") /\
        h = generic_hint)
     end) /\
  (forall cv : float,
     fst (solve_with_ontology (lower (target data))
            (built_problem o (lower (target data)))
            (built_store o (given data))) = ret cv ->
     unit_check (Some o) (lower (target data))
       (q_unit (studentAnswer data)) = "unit" ->
     Hint_Units o = None ->
     solve (Some o) data = Unhandled AttributeError).
Proof.
  split.
  - intros r H.
    destruct (success_anatomy _ _ _ H) as (o' & Ho & _ & _ & _ & E & Hh).
    injection Ho as <-.
    assert (Hcat : In (errorType r) categories).
    { destruct E as [(_ & ->)|(_ & C)]; [simpl; tauto|].
      apply classifier_categories in C. simpl in *. tauto. }
    simpl in Hcat.
    destruct Hcat as [C|[C|[C|[C|[C|[]]]]]]; rewrite <- C in *; simpl in Hh.
    + rewrite Hh. reflexivity.
    + destruct Hh as (h & G & ->).
      change (hint_key "missing") with "other" in G.
      rewrite generic_hint_for in G by reflexivity.
      injection G as <-. right. right. auto.
    + destruct Hh as (h & G & ->). right. left. split; [reflexivity|].
      apply displayText0_returns. exact G.
    + destruct Hh as (h & G & ->). left. split; [reflexivity|].
      apply displayText0_returns. exact G.
    + destruct Hh as (h & G & ->).
      change (hint_key "other") with "other" in G.
      rewrite generic_hint_for in G by reflexivity.
      injection G as <-. right. right. auto.
  - intros cv S U Hu.
    rewrite Endpoint.solve_loaded. cbv zeta. rewrite S.
    unfold ret at 1. cbv beta iota.
    rewrite diagnose_steps, U. simpl.
    unfold get_hint_from_ontology. simpl. rewrite Hu. reflexivity.
Qed.

Lemma hint_provenance_witness :
  (solve (Some sample_ontology) request_force_in_kg =
     Json 200 (ResultBody result_force_in_kg) /\
   ((errorType result_force_in_kg = "unit" /\
     first_text (Hint_Units sample_ontology)
       "Check the unit of your answer.") \/
    (errorType result_force_in_kg = "math" /\
     first_text (Hint_Arithmetic sample_ontology)
       "Check the unit of your answer.") \/
    ((errorType result_force_in_kg = "other" \/
      errorType result_force_in_kg = "missing") /\
     "Check the unit of your answer." = generic_hint))) /\
  solve (Some ontology_without_unit_hint) request_force_in_kg =
    Unhandled AttributeError.
Proof.
  split; [split; [reflexivity|]|].
  - exact (proj1 (hint_provenance sample_ontology request_force_in_kg)
             result_force_in_kg eq_refl).
  - apply (proj2 (hint_provenance ontology_without_unit_hint
                    request_force_in_kg) 12%float); reflexivity.
Defined.
End Responses.

(* ------------------------------------------------------------------ *)
(** ** The classifier at its edges *)

Module ClassifierEdges.
Import FloatFacts.
Local Open Scope float_scope.

(** A finite value compares equal to itself. *)
Lemma SFcompare_refl_finite s m e :
  SFcompare (S754_finite s m e) (S754_finite s m e) = Some Eq.
Proof.
  simpl. rewrite Z.compare_refl.
  change (PosDef.Pos.compare_cont Eq m m) with (Pos.compare m m).
  rewrite Pos.compare_refl. destruct s; reflexivity.
Qed.

Lemma Prim2SF_infinity : Prim2SF infinity = S754_infinity false.
Proof. reflexivity. Qed.

(** [is_finite] by the shape of the value. *)
Lemma is_finite_cases (c : float) :
  is_finite c =
  match Prim2SF c with
  | S754_zero _ | S754_finite _ _ _ => true
  | S754_infinity _ | S754_nan => false
  end.
Proof.
  unfold is_finite, is_nan, is_infinity.
  rewrite !FloatAxioms.eqb_spec, abs_spec, Prim2SF_infinity. unfold SFeqb.
  destruct (Prim2SF c) as [s|s| |s m e] eqn:E.
  - reflexivity.
  - destruct s; reflexivity.
  - reflexivity.
  - rewrite SFcompare_refl_finite. reflexivity.
Qed.

(** [c - c] is [+0] for a finite [c] and not a number otherwise. *)
Lemma sub_self (c : float) :
  Prim2SF (c - c) =
  match Prim2SF c with
  | S754_zero _ | S754_finite _ _ _ => S754_zero false
  | S754_infinity _ | S754_nan => S754_nan
  end.
Proof.
  rewrite sub_spec. unfold SF64sub, SFsub.
  destruct (Prim2SF c) as [s|s| |s m e].
  - destruct s; reflexivity.
  - destruct s; reflexivity.
  - reflexivity.
  - cbv zeta. rewrite Z.sub_diag. reflexivity.
Qed.

(** Not-a-number propagates through subtraction and division. *)
Lemma nan_sub_l (c : float) : nan - c = nan.
Proof.
  apply Prim2SF_inj. rewrite sub_spec. destruct (Prim2SF c); reflexivity.
Qed.

Lemma nan_sub_r (s : float) : s - nan = nan.
Proof.
  apply Prim2SF_inj. rewrite sub_spec. destruct (Prim2SF s); reflexivity.
Qed.

Lemma nan_div_l (d : float) : nan / d = nan.
Proof.
  apply Prim2SF_inj. rewrite div_spec. destruct (Prim2SF d); reflexivity.
Qed.

Lemma nan_div_r (d : float) : d / nan = nan.
Proof.
  apply Prim2SF_inj. rewrite div_spec. destruct (Prim2SF d); reflexivity.
Qed.

(** A value against itself: "none" when it is finite, "other" when it is
    infinite or not a number. *)
Lemma same_value_classified (c : float) :
  classify_error (Some c) (Some c) =
  ret (if is_finite c then "none" else "other")%string.
Proof.
  rewrite Classifier.classify_error_values, is_finite_cases.
  unfold diff, band.
  pose proof (sub_self c) as Hs.
  assert (Hz : (c =? 0) = match Prim2SF c with S754_zero _ => true | _ => false end).
  { rewrite FloatAxioms.eqb_spec. unfold SFeqb.
    destruct (Prim2SF c) as [s|s| |s m e]; try reflexivity;
      destruct s; reflexivity. }
  rewrite Hz.
  destruct (Prim2SF c) as [s|s| |s m e] eqn:E.
  - replace (c - c) with 0 by (apply Prim2SF_inj; rewrite Hs; reflexivity).
    reflexivity.
  - replace (c - c) with nan by (apply Prim2SF_inj; rewrite Hs; reflexivity).
    change (abs nan) with nan. rewrite nan_div_l. reflexivity.
  - replace (c - c) with nan by (apply Prim2SF_inj; rewrite Hs; reflexivity).
    change (abs nan) with nan. rewrite nan_div_l. reflexivity.
  - replace (c - c) with 0 by (apply Prim2SF_inj; rewrite Hs; reflexivity).
    change (abs 0) with 0.
    replace (0 / abs c) with 0.
    + reflexivity.
    + apply Prim2SF_inj. rewrite div_spec, abs_spec, E. reflexivity.
Qed.

(** X11. Numbers that are not finite.  A not-a-number answer, or any
    answer against a not-a-number correct value, is classified "other";
    an infinite answer against a finite correct value is classified
    "math". *)
Theorem not_finite_numbers (s c : float) :
  classify_error (Some nan) (Some c) = ret "other"%string /\
  classify_error (Some s) (Some nan) = ret "other"%string /\
  (is_finite c = true ->
   classify_error (Some infinity) (Some c) = ret "math"%string /\
   classify_error (Some neg_infinity) (Some c) = ret "math"%string).
Proof.
  rewrite !Classifier.classify_error_values. unfold diff, band.
  rewrite nan_sub_l, nan_sub_r. change (abs nan) with nan.
  change (nan =? 0) with false. cbv iota.
  rewrite nan_div_l.
  split; [destruct (c =? 0); reflexivity|]. split; [reflexivity|].
  rewrite is_finite_cases. intros Hc.
  assert (Hp : infinity - c = infinity).
  { apply Prim2SF_inj. rewrite sub_spec.
    destruct (Prim2SF c); try discriminate; reflexivity. }
  assert (Hn : neg_infinity - c = neg_infinity).
  { apply Prim2SF_inj. rewrite sub_spec.
    destruct (Prim2SF c); try discriminate; reflexivity. }
  rewrite Hp, Hn. change (abs infinity) with infinity.
  change (abs neg_infinity) with infinity.
  destruct (c =? 0) eqn:Hz; [split; reflexivity|].
  assert (Hd : infinity / abs c = infinity).
  { apply Prim2SF_inj. rewrite div_spec, abs_spec.
    rewrite FloatAxioms.eqb_spec in Hz. unfold SFeqb in Hz.
    destruct (Prim2SF c) as [sg|sg| |sg m e]; try discriminate; reflexivity. }
  rewrite Hd. split; reflexivity.
Qed.

Lemma not_finite_numbers_witness :
  is_finite 12 = true /\
  classify_error (Some infinity) (Some 12) = ret "math"%string /\
  classify_error (Some neg_infinity) (Some 12) = ret "math"%string /\
  classify_error (Some nan) (Some 12) = ret "other"%string.
Proof.
  pose proof (not_finite_numbers 0 12) as (Hnan & _ & Hinf).
  split; [reflexivity|].
  destruct (Hinf eq_refl) as (Hp & Hn).
  split; [exact Hp|]. split; [exact Hn|exact Hnan].
Defined.

(** X10. An answer equal to the correct value is classified "none" exactly
    when that value is finite; against an infinite or not-a-number correct
    value (an overflowed product, say) the same value is classified
    "other".  At the endpoint: when the solver returns a finite value, the
    student's number is that value and the unit check passes, the response
    is 200 with [correct = true], category "none" and no hint. *)
Theorem exact_answer_accepted (o : Ontology) (data : Request) (cv : float) :
  classify_error (Some cv) (Some cv) =
    ret (if is_finite cv then "none" else "other")%string /\
  (fst (solve_with_ontology (lower (target data))
          (built_problem o (lower (target data)))
          (built_store o (given data))) = ret cv ->
   is_finite cv = true ->
   to_float (q_value (studentAnswer data)) = Some cv ->
   unit_check (Some o) (lower (target data)) (q_unit (studentAnswer data))
     = "none"%string ->
   solve (Some o) data =
   Json 200 (ResultBody {| correct := true;
                           correctValue := cv;
                           res_target := lower (target data);
                           errorType := "none";
                           hint := None |})).
Proof.
  split; [apply same_value_classified|].
  intros S Hf Hv Hu.
  rewrite Endpoint.solve_loaded. cbv zeta. rewrite S.
  unfold ret at 1. cbv iota beta.
  rewrite Responses.diagnose_steps, Hu, Hv.
  change ("none" =? "unit")%string with false. cbv iota.
  rewrite same_value_classified, Hf. reflexivity.
Qed.

Lemma exact_answer_accepted_witness :
  classify_error (Some 12) (Some 12) = ret "none"%string /\
  classify_error (Some infinity) (Some infinity) = ret "other"%string /\
  solve (Some sample_ontology) request_right_answer =
    Json 200 (ResultBody result_right_answer).
Proof.
  split; [|split].
  - apply (proj1 (exact_answer_accepted sample_ontology request_right_answer 12)).
  - apply (proj1 (exact_answer_accepted sample_ontology request_right_answer
                    infinity)).
  - apply (proj2 (exact_answer_accepted sample_ontology request_right_answer 12));
      reflexivity.
Defined.
End ClassifierEdges.

(* ------------------------------------------------------------------ *)
(** ** The unit check *)

Module UnitCheck.

Lemma prefix_occurs (needle hay : string) :
  String.prefix needle hay = true <-> exists post, hay = needle ++ post.
Proof.
  revert hay. induction needle as [|a needle IH]; intros hay.
  - destruct hay; simpl; (split; [eauto|reflexivity]).
  - destruct hay as [|b hay]; simpl.
    + split; [discriminate|]. intros (post & H). discriminate.
    + destruct (ascii_dec a b) as [->|Hab].
      * rewrite IH. split; intros (post & H); exists post.
        -- rewrite H. reflexivity.
        -- injection H as H. exact H.
      * split; [discriminate|]. intros (post & H). injection H as H1 H2.
        congruence.
Qed.

Lemma contains_step (needle hay : string) :
  contains needle hay =
  if String.prefix needle hay then true
  else match hay with
       | EmptyString => false
       | String _ rest => contains needle rest
       end.
Proof. destruct hay; reflexivity. Qed.

(** The [in] operator is the substring relation. *)
Lemma contains_occurs (needle hay : string) :
  contains needle hay = true <-> occurs_in needle hay.
Proof.
  unfold occurs_in. induction hay as [|c hay IH]; rewrite contains_step.
  - destruct (String.prefix needle "") eqn:P.
    + apply prefix_occurs in P as (post & H).
      split; [|reflexivity]. intros _. exists "", post. exact H.
    + split; [discriminate|]. intros (pre & post & H).
      destruct pre; simpl in H.
      * assert (String.prefix needle "" = true)
          by (apply prefix_occurs; eauto).
        congruence.
      * discriminate.
  - destruct (String.prefix needle (String c hay)) eqn:P.
    + apply prefix_occurs in P as (post & H).
      split; [|reflexivity]. intros _. exists "", post. exact H.
    + rewrite IH. split.
      * intros (pre & post & H). exists (String c pre), post.
        rewrite H. reflexivity.
      * intros (pre & post & H). destruct pre as [|c' pre]; simpl in H.
        -- assert (String.prefix needle (String c hay) = true)
             by (apply prefix_occurs; eauto).
           congruence.
        -- injection H as _ H. eauto.
Qed.

(** X12. The unit check flags an answer exactly when the ontology has a
    unit individual for the target, the student's unit is not empty, and
    the symbol required for the target ("N", "kg" or "m/s", case
    sensitive) does not occur anywhere in it; in every other case the
    check passes.  An empty unit is never flagged, and any text around
    the symbol is accepted. *)
Theorem unit_check_flags (onto : option Ontology) (t u : string) :
  (unit_check onto t u = "unit" <->
   get_unit_individual onto t <> None /\ u <> "" /\
   exists sym, required_symbol t = Some sym /\ ~ occurs_in sym u) /\
  (unit_check onto t u <> "unit" -> unit_check onto t u = "none").
Proof.
  split.
  - unfold unit_check, required_symbol.
    destruct (get_unit_individual onto t) as [ind|];
      [|split; [discriminate|intros (H & _); congruence]].
    assert (Hu : nonempty u = true <-> u <> "")
      by (destruct u; simpl; split; congruence).
    pose proof (contains_occurs "N" u) as HN.
    pose proof (contains_occurs "kg" u) as HK.
    pose proof (contains_occurs "m/s" u) as HM.
    destruct (nonempty u), (contains "N" u), (contains "kg" u),
      (contains "m/s" u);
      (destruct (String.eqb_spec t "force") as [->|Hf];
       [|destruct (String.eqb_spec t "mass") as [->|Hm];
         [|destruct (String.eqb_spec t "acceleration") as [->|Ha]]]);
      cbn;
      (split;
       [ intros H;
         first
           [ discriminate H
           | split; [discriminate|]; split; [apply Hu; reflexivity|];
             eexists; split; [reflexivity|];
             intros Ho;
             first [ apply HN in Ho | apply HK in Ho | apply HM in Ho ];
             discriminate Ho ]
       | intros (_ & Hne & sym & Hs & Ho);
         first
           [ reflexivity
           | exfalso; discriminate Hs
           | exfalso; apply Hu in Hne; discriminate Hne
           | exfalso; injection Hs as <-; apply Ho;
             first [ apply HN | apply HK | apply HM ]; reflexivity ] ]).
  - destruct (Responses.unit_check_outcomes onto t u) as [H|H]; congruence.
Qed.

(** Units the check accepts and flags. *)
Lemma unit_check_flags_witness :
  unit_check (Some sample_ontology) "acceleration" "km/s" = "none" /\
  unit_check (Some sample_ontology) "force" "kN per kg" = "none" /\
  unit_check (Some sample_ontology) "force" "" = "none" /\
  unit_check (Some sample_ontology) "force" "n" = "unit" /\
  unit_check (Some sample_ontology) "mass" "g" = "unit".
Proof.
  split; [reflexivity|]. split; [reflexivity|]. split; [reflexivity|]. split.
  - apply (proj1 (unit_check_flags (Some sample_ontology) "force" "n")).
    repeat split; try discriminate. exists "N". split; [reflexivity|].
    intros H. apply contains_occurs in H. discriminate.
  - apply (proj1 (unit_check_flags (Some sample_ontology) "mass" "g")).
    repeat split; try discriminate. exists "kg". split; [reflexivity|].
    intros H. apply contains_occurs in H. discriminate.
Defined.
End UnitCheck.

(* ------------------------------------------------------------------ *)
(** ** From the numbers of the request to the correct value *)

Module EndToEnd.
Import Solver.

(** The solver's value, by target. *)
Lemma solver_value (t : string) (p : Problem) (st : Store) (v : float) :
  fst (solve_with_ontology t p st) = ret v ->
  (t = "force" ->
   exists m a, extract (m_ind st) = Some m /\ extract (a_ind st) = Some a /\
               v = (m * a)%float) /\
  (t = "acceleration" ->
   exists f m, extract (f_ind st) = Some f /\ extract (m_ind st) = Some m /\
               (m =? 0)%float = false /\ v = (f / m)%float) /\
  (t = "mass" ->
   exists f a, extract (f_ind st) = Some f /\ extract (a_ind st) = Some a /\
               (a =? 0)%float = false /\ v = (f / a)%float).
Proof.
  intros H. repeat split; intros ->; unfold solve_with_ontology in H;
    simpl in H.
  - destruct (extract (m_ind st)) as [m|], (extract (a_ind st)) as [a|];
      try discriminate.
    injection H as <-. eauto.
  - destruct (extract (f_ind st)) as [f|], (extract (m_ind st)) as [m|];
      try discriminate.
    unfold compute_accel, truediv in H. simpl in H.
    destruct (m =? 0)%float eqn:Z; [discriminate|].
    injection H as <-. exists f, m. auto.
  - destruct (extract (f_ind st)) as [f|], (extract (a_ind st)) as [a|];
      try discriminate.
    unfold compute_mass, truediv in H. simpl in H.
    destruct (a =? 0)%float eqn:Z; [discriminate|].
    injection H as <-. exists f, a. auto.
Qed.

(** X13. The [correctValue] of a 200 response is computed from the
    numbers the request supplies: mass * acceleration for target "force",
    force / mass for "acceleration" and force / acceleration for "mass"
    (targets compared in lower case); both numbers are then present in the
    request and a divisor is not zero. *)
Theorem correct_value_from_request
  (onto : option Ontology) (data : Request) (r : SolveResult) :
  solve onto data = Json 200 (ResultBody r) ->
  (lower (target data) = "force" ->
   exists m a,
     supplied (g_mass (given data)) = Some m /\
     supplied (g_acceleration (given data)) = Some a /\
     correctValue r = (m * a)%float) /\
  (lower (target data) = "acceleration" ->
   exists f m,
     supplied (g_force (given data)) = Some f /\
     supplied (g_mass (given data)) = Some m /\
     (m =? 0)%float = false /\ correctValue r = (f / m)%float) /\
  (lower (target data) = "mass" ->
   exists f a,
     supplied (g_force (given data)) = Some f /\
     supplied (g_acceleration (given data)) = Some a /\
     (a =? 0)%float = false /\ correctValue r = (f / a)%float).
Proof.
  intros H.
  destruct (Responses.success_anatomy _ _ _ H) as (o & _ & S & _).
  destruct (extract_built o (given data)) as (Em & Ea & Ef).
  destruct (solver_value _ _ _ _ S) as (Hf & Ha & Hm).
  rewrite Em, Ea, Ef in *. unfold supplied. auto.
Qed.

Lemma correct_value_from_request_witness :
  solve (Some sample_ontology) request_acceleration =
    Json 200 (ResultBody {| correct := true; correctValue := 3;
                            res_target := "acceleration";
                            errorType := "none"; hint := None |}) /\
  exists f m,
    supplied (g_force (given request_acceleration)) = Some f /\
    supplied (g_mass (given request_acceleration)) = Some m /\
    (m =? 0)%float = false /\ 3%float = (f / m)%float.
Proof.
  split; [reflexivity|].
  apply (proj1 (proj2 (correct_value_from_request (Some sample_ontology)
                         request_acceleration
                         {| correct := true; correctValue := 3;
                            res_target := "acceleration";
                            errorType := "none"; hint := None |}
                         eq_refl))).
  reflexivity.
Defined.
End EndToEnd.

(* ------------------------------------------------------------------ *)
(** ** Looking units and formulas up by name *)

Module Lookup.

Lemma lower_ascii_idempotent (c : ascii) :
  lower_ascii (lower_ascii c) = lower_ascii c.
Proof.
  destruct c as [[] [] [] [] [] [] [] []]; reflexivity.
Qed.

Lemma lower_idempotent (s : string) : lower (lower s) = lower s.
Proof.
  induction s as [|c s IH]; simpl; [reflexivity|].
  rewrite lower_ascii_idempotent, IH. reflexivity.
Qed.

(** X14. The unit and the formula of a quantity are looked up by its
    name in lower case: the letter case of the name does not matter, a
    name that is none of "mass", "acceleration" and "force" in lower case
    has neither, and without a loaded ontology no name has either. *)
Theorem lookup_by_lower_case_name (onto : option Ontology) (k : string) :
  get_unit_individual onto (lower k) = get_unit_individual onto k /\
  choose_formula_for_target onto (lower k) = choose_formula_for_target onto k /\
  (~ In (lower k) targets ->
   get_unit_individual onto k = None /\
   choose_formula_for_target onto k = None) /\
  get_unit_individual None k = None /\
  choose_formula_for_target None k = None.
Proof.
  unfold get_unit_individual, choose_formula_for_target.
  rewrite lower_idempotent.
  split; [reflexivity|]. split; [reflexivity|]. split; [|split; reflexivity].
  intros Hk. destruct onto as [o|]; [|split; reflexivity].
  cbv zeta.
  destruct (String.eqb_spec (lower k) "mass") as [E|_];
    [exfalso; apply Hk; rewrite E; simpl; tauto|].
  destruct (String.eqb_spec (lower k) "force") as [E|_];
    [exfalso; apply Hk; rewrite E; simpl; tauto|].
  destruct (String.eqb_spec (lower k) "acceleration") as [E|_];
    [exfalso; apply Hk; rewrite E; simpl; tauto|].
  split; reflexivity.
Qed.

Lemma lookup_by_lower_case_name_witness :
  get_unit_individual (Some sample_ontology) "MASS" =
    Kilogram sample_ontology /\
  choose_formula_for_target (Some sample_ontology) "Acceleration" =
    a_equals_F_div_m sample_ontology /\
  get_unit_individual (Some sample_ontology) "energy" = None /\
  choose_formula_for_target (Some sample_ontology) "energy" = None.
Proof.
  pose proof (lookup_by_lower_case_name (Some sample_ontology) "MASS")
    as (Hu & _).
  pose proof (lookup_by_lower_case_name (Some sample_ontology) "Acceleration")
    as (_ & Hf & _).
  pose proof (lookup_by_lower_case_name (Some sample_ontology) "energy")
    as (_ & _ & He & _).
  split; [rewrite <- Hu; reflexivity|].
  split; [rewrite <- Hf; reflexivity|].
  apply He. simpl. intros [H|[H|[H|[]]]]; discriminate.
Defined.
End Lookup.

(* ------------------------------------------------------------------ *)
(** ** Locating the ontology file *)

Module Startup.
Local Open Scope list_scope.

Lemma find_first {A : Type} (f : A -> bool) (l : list A) (x : A) :
  find f l = Some x ->
  exists before after,
    l = before ++ x :: after /\ f x = true /\
    forall y, In y before -> f y = false.
Proof.
  induction l as [|a l IH]; simpl; [discriminate|].
  destruct (f a) eqn:Fa.
  - intros H. injection H as <-. exists [], l. simpl. tauto.
  - intros H. destruct (IH H) as (before & after & -> & Fx & Hb).
    exists (a :: before), after. simpl. repeat split; auto.
    intros y [<-|Hy]; auto.
Qed.

Lemma find_none {A : Type} (f : A -> bool) (l : list A) :
  find f l = None <-> forall y, In y l -> f y = false.
Proof.
  induction l as [|a l IH]; simpl.
  - split; [intros _ y []|reflexivity].
  - destruct (f a) eqn:Fa.
    + split; [discriminate|]. intros H. rewrite (H a) in Fa by auto.
      discriminate.
    + rewrite IH. split.
      * intros H y [<-|Hy]; auto.
      * intros H y Hy. apply H. auto.
Qed.

(** X15. Which file the start-up code loads.  If a candidate exists
    beside the script, the path is that of the first such candidate in
    the order .owl, .rdf, .ttl, whatever the working directory holds.
    Otherwise it is the first candidate that exists in the working
    directory.  If none exists anywhere it is the bare name
    "Newton_2ndLaw.owl". *)
Theorem onto_path_choice (fs : FileSystem) :
  (forall name, found_path fs = Some name ->
     ONTO_PATH fs = beside_resolve fs name /\
     exists before after,
       candidate_names = before ++ name :: after /\
       beside_exists fs name = true /\
       forall other, In other before -> beside_exists fs other = false) /\
  (found_path fs = None ->
   (forall name, In name candidate_names -> beside_exists fs name = false) /\
   ((exists name before after,
       ONTO_PATH fs = cwd_resolve fs name /\
       candidate_names = before ++ name :: after /\
       cwd_exists fs name = true /\
       forall other, In other before -> cwd_exists fs other = false) \/
    ((forall name, In name candidate_names -> cwd_exists fs name = false) /\
     ONTO_PATH fs = "Newton_2ndLaw.owl"))).
Proof.
  unfold ONTO_PATH, found_path. split.
  - intros name H. rewrite H. split; [reflexivity|].
    apply find_first. exact H.
  - intros H. rewrite H. split; [apply find_none; exact H|].
    destruct (find (cwd_exists fs) candidate_names) as [name|] eqn:F.
    + left. destruct (find_first _ _ _ F) as (before & after & Hl & Hx & Hb).
      exists name, before, after. auto.
    + right. split; [apply find_none; exact F|reflexivity].
Qed.

Lemma onto_path_choice_witness :
  found_path sample_file_system = Some "Newton_2ndLaw.rdf" /\
  ONTO_PATH sample_file_system = "/srv/backend/Newton_2ndLaw.rdf" /\
  cwd_exists sample_file_system "Newton_2ndLaw.owl" = true.
Proof.
  split; [reflexivity|]. split; [|reflexivity].
  apply (proj1 (onto_path_choice sample_file_system) "Newton_2ndLaw.rdf").
  reflexivity.
Defined.
End Startup.
